(** * Trending-hashtag tracker: [src/visualize_hashtags.py]

    A shallow embedding of the script and of the pandas / numpy calls it
    makes, followed by the properties of the normalisation pipeline
    (column resolution, cleaning, coercion, filtering, ordering), of the
    CSV export and of the Markdown report.

    Conventions of the embedding.
    - A Python [str] is a list of Unicode code points ([pystr]).
    - A cell of a pandas object column is a [pyobj]: text, an integer, a
      float or a boolean.  An empty spreadsheet cell is the float [NaN],
      as [pandas.read_excel] delivers it.  The element-wise meaning of the
      pandas operations used here is the same for typed columns (int64,
      float64, bool) and for object columns, so one cell type serves all.
    - A float is the rational it denotes, or an infinity, or NaN.  The
      cast to [int64] truncates toward zero a value whose integer part
      fits in 64 bits; what it yields otherwise is left to the platform
      ([cast_overflow]).  The rounding of integers beyond 2^53 in a column
      that pandas promotes to [float64] is not represented: the statements
      about the value of a count are made for columns whose integers and
      parsed texts stay below 2^53 in magnitude ([exact_count]).
    - Library routines whose exact behaviour is not fixed by the script
      (text-to-number parsing, float printing, the sorting algorithm behind
      [kind="quicksort"], workbook decoding, chart rendering, the Markdown
      table printer) are parameters of the development.  The pandas
      behaviour described is that of the 1.x / 2.x series. *)

From Stdlib Require Import ZArith QArith String Ascii DecimalString Lia.
From stdpp Require Import base option list sorting gmap.

Local Open Scope Z_scope.

(** ** Python values *)

Abbreviation pystr := (list N).

(** A string literal as code points (ASCII literals only). *)
Definition py (s : string) : pystr :=
  (fun a => N_of_ascii a) <$> list_ascii_of_string s.

(** [str.isspace] for one code point: the code points CPython's
    [_PyUnicode_IsWhitespace] accepts. *)
Definition isspace (c : N) : bool :=
  ((9 <=? c) && (c <=? 13) || (28 <=? c) && (c <=? 32)
   || (c =? 133) || (c =? 160) || (c =? 5760)
   || (8192 <=? c) && (c <=? 8202)
   || (c =? 8232) || (c =? 8233) || (c =? 8239) || (c =? 8287)
   || (c =? 12288))%N.

Fixpoint lstrip (s : pystr) : pystr :=
  match s with
  | [] => []
  | c :: s' => if isspace c then lstrip s' else s
  end.

Definition rstrip (s : pystr) : pystr := reverse (lstrip (reverse s)).

(** [str.strip()] with no argument. *)
Definition strip (s : pystr) : pystr := rstrip (lstrip s).

(** [str.lower()] on the ASCII letters.  No letter outside ASCII lowercases
    to a letter of ["hashtag"] or ["count"], so both lookups made by
    [find_columns] agree with Python's full Unicode lowering. *)
Definition lower_char (c : N) : N :=
  if ((65 <=? c) && (c <=? 90))%N then (c + 32)%N else c.

Definition lower (s : pystr) : pystr := lower_char <$> s.

(** [str(int)]. *)
Definition str_int (z : Z) : pystr := py (NilZero.string_of_int (Z.to_int z)).

Inductive float64 : Type :=
  | Fin (q : Q)
  | Inf (negative : bool)
  | NaN.

Inductive pyobj : Type :=
  | OStr (s : pystr)
  | OInt (z : Z)
  | OFloat (f : float64)
  | OBool (b : bool).

(** ** Exceptions and the result of a fallible computation *)

Inductive exn : Type :=
  | AttributeError                          (* [c.lower()] on a label that is not text *)
  | ValueError (msg : pystr) (found : list pyobj)  (* raised by [find_columns] *)
  | LengthMismatch                          (* [df.columns = [...]] on a frame without exactly two columns *)
  | IntCastingNaNError                      (* [astype(int)] on a non-finite value *)
  | IndexError                              (* a position outside the frame *)
  | FileExistsError
  | FileNotFoundError
  | LibraryError (what : pystr).            (* workbook decoding, rendering, table printing *)

Inductive result (A : Type) : Type :=
  | Ok (a : A)
  | Raise (e : exn).
Arguments Ok {A} a.
Arguments Raise {A} e.

Global Instance result_ret : MRet result := fun A a => Ok a.
Global Instance result_bind : MBind result := fun A B f r =>
  match r with
  | Ok a => f a
  | Raise e => Raise e
  end.

Definition of_option {A} (e : exn) (o : option A) : result A :=
  match o with
  | Some a => Ok a
  | None => Raise e
  end.

(** ** Frames *)

(** The frame [read_excel] returns: named columns of cells, in sheet
    order.  Its row index is the range [0 .. n-1]. *)
Abbreviation DataFrame := (list (pyobj * list pyobj)).

Definition columns (df : DataFrame) : list pyobj := fst <$> df.

(** The cleaned frame: each row carries its index label, its hashtag and
    its count. *)
Abbreviation Row := (nat * (pystr * Z))%type.
Abbreviation Frame := (list Row).

Definition row_index (r : Row) : nat := r.1.
Definition row_hashtag (r : Row) : pystr := r.2.1.
Definition row_count (r : Row) : Z := r.2.2.

(** ** [find_columns] *)

(** [{c.lower(): c for c in df.columns}]: later columns overwrite earlier
    ones with the same lowered name; a label without [.lower()] raises. *)
Fixpoint cols_lower_from (m : gmap pystr pystr) (cols : list pyobj)
  : result (gmap pystr pystr) :=
  match cols with
  | [] => Ok m
  | OStr c :: cols' => cols_lower_from (<[lower c := c]> m) cols'
  | _ :: _ => Raise AttributeError
  end.

Definition cols_lower (cols : list pyobj) : result (gmap pystr pystr) :=
  cols_lower_from ∅ cols.

Definition schema_message : pystr :=
  py "Input sheet must have columns 'Hashtag' and 'Count'. Found: ".

(** The test [not hashtag_col or not count_col] is Python truthiness:
    [None] and the empty string are both false. *)
Definition find_columns (df : DataFrame) : result (pystr * pystr) :=
  cl ← cols_lower (columns df);
  let hashtag_col := cl !! py "hashtag" in
  let count_col := cl !! py "count" in
  match hashtag_col, count_col with
  | Some (h0 :: h), Some (c0 :: c) => Ok (h0 :: h, c0 :: c)
  | _, _ => Raise (ValueError schema_message (columns df))
  end.

(** ** The pandas operations used by [main] *)

Definition label_is (k : pystr) (c : pyobj) : bool :=
  match c with
  | OStr s => bool_decide (s = k)
  | _ => false
  end.

(** [df[[k1, k2]]]: for each key in turn, every column carrying that
    label. *)
Definition getitem (df : DataFrame) (keys : list pystr) : DataFrame :=
  k ← keys; filter (fun col => label_is k col.1) df.

(** [df.columns = ["Hashtag", "Count"]] on the selection: the two columns,
    or a length mismatch. *)
Definition set_columns2 (df : DataFrame) : result (list pyobj * list pyobj) :=
  match df with
  | [(_, hs); (_, cs)] => Ok (hs, cs)
  | _ => Raise LengthMismatch
  end.

(** The integer part of a rational, toward zero. *)
Definition trunc (q : Q) : Z := Z.quot (Qnum q) (Z.pos (Qden q)).

(** The range of numpy's [int64]. *)
Definition in_int64 (z : Z) : bool := (- 2 ^ 63 <=? z) && (z <? 2 ^ 63).

Definition fillna0 (f : float64) : float64 :=
  match f with
  | NaN => Fin 0
  | _ => f
  end.

(** Positional selection ([take]); a position outside the list raises. *)
Definition take {A} (indexer : list nat) (l : list A) : result (list A) :=
  of_option IndexError (mapM (fun i => l !! i) indexer).

(** [reset_index(drop=True)]. *)
Definition reset_index (df : Frame) : Frame :=
  zip (seq 0 (length df)) (snd <$> df).

(** [df.head(n)]. *)
Definition head (n : nat) (df : Frame) : Frame := firstn n df.

Section Pipeline.

(** pandas' parser of text into a number ([floatify]); [None] when the
    text is not numeric. *)
Variable floatify : pystr -> option float64.

(** Python's [str] of a finite float. *)
Variable float_repr : Q -> pystr.

(** What the platform's conversion of a double to a 64-bit integer yields
    when the integer part does not fit (C leaves it undefined). *)
Variable cast_overflow : Q -> Z.

(** numpy's [argsort] with [kind="quicksort"], the default of
    [sort_values]: positions of the values in ascending order. *)
Variable argsort : list Z -> list nat.

(** [astype(str)] on one cell. *)
Definition astype_str (o : pyobj) : pystr :=
  match o with
  | OStr s => s
  | OInt z => str_int z
  | OFloat (Fin q) => float_repr q
  | OFloat (Inf false) => py "inf"
  | OFloat (Inf true) => py "-inf"
  | OFloat NaN => py "nan"
  | OBool true => py "True"
  | OBool false => py "False"
  end.

(** [pd.to_numeric(..., errors="coerce")], taken one cell at a time, with
    an integer kept exact.  pandas converts the column as a whole: as soon
    as one cell of it is a float, a text that is not an integer literal or
    a text that does not parse, every cell is stored as a double, which
    rounds an integer of magnitude 2^53 or more (next to the text [bad],
    2^53 + 1 becomes 2^53); integers beyond the range of [int64] take the
    [uint64] or the object path.  None of this is modelled: the definition
    is the library's conversion on the cells singled out by [exact_count]
    below, and the statements about the value of a count are made for
    columns of such cells. *)
Definition to_numeric (o : pyobj) : float64 :=
  match o with
  | OStr s => default NaN (floatify s)
  | OInt z => Fin (inject_Z z)
  | OFloat f => f
  | OBool b => Fin (inject_Z (if b then 1 else 0))
  end.

(** A count cell that a double holds exactly, whatever else the column
    holds: an integer of magnitude below 2^53, or a text whose parsed
    value, when finite, has an integer part of magnitude below 2^53.
    Floats and booleans are stored as they are. *)
Definition exact_count (o : pyobj) : bool :=
  match o with
  | OInt z => (- 2 ^ 53 <? z) && (z <? 2 ^ 53)
  | OStr s =>
      match floatify s with
      | Some (Fin q) => (- 2 ^ 53 <? trunc q) && (trunc q <? 2 ^ 53)
      | _ => true
      end
  | OFloat _ | OBool _ => true
  end.

(** [astype(int)]: a non-finite value raises; a finite one is truncated
    toward zero. *)
Definition cast_int64 (q : Q) : Z :=
  if in_int64 (trunc q) then trunc q else cast_overflow q.

Definition astype_int1 (f : float64) : result Z :=
  match f with
  | Fin q => Ok (cast_int64 q)
  | _ => Raise IntCastingNaNError
  end.

Fixpoint astype_int (col : list float64) : result (list Z) :=
  match col with
  | [] => Ok []
  | f :: col' =>
      z ← astype_int1 f;
      zs ← astype_int col';
      Ok (z :: zs)
  end.

(** [nargsort(k, kind, ascending=False)]: the values are reversed,
    sorted ascending, and the resulting positions reversed again. *)
Definition nargsort_desc (items : list Z) : result (list nat) :=
  let idx := seq 0 (length items) in
  let nonnan := reverse items in
  let nonnan_idx := reverse idx in
  indexer ← take (argsort nonnan) nonnan_idx;
  Ok (reverse indexer).

(** [df.sort_values("Count", ascending=False)]. *)
Definition sort_values_desc (df : Frame) : result Frame :=
  indexer ← nargsort_desc (row_count <$> df);
  take indexer df.

(** Lines 35-36 of [main]: the two cleaned columns. *)
Definition clean_label (o : pyobj) : pystr := strip (astype_str o).

Definition clean_hashtag (hs : list pyobj) : list pystr := clean_label <$> hs.

Definition clean_count (cs : list pyobj) : result (list Z) :=
  astype_int ((fun o => fillna0 (to_numeric o)) <$> cs).

(** Line 39: [df[df["Hashtag"].str.len() > 0]]. *)
Definition drop_empty (df : Frame) : Frame :=
  filter (fun r => (0 < length (row_hashtag r))%nat) df.

(** The frame after line 36, indexed [0 .. n-1].  The columns of a frame
    have the same length; [zip] pairs them row by row. *)
Definition cleaned (hs : list pyobj) (cs : list pyobj) : result Frame :=
  counts ← clean_count cs;
  let hashtags := clean_hashtag hs in
  Ok (zip (seq 0 (length hashtags)) (zip hashtags counts)).

(** Lines 32-34: the two resolved columns. *)
Definition select_columns (df : DataFrame) : result (list pyobj * list pyobj) :=
  '(hashtag_col, count_col) ← find_columns df;
  set_columns2 (getitem df [hashtag_col; count_col]).

(** Lines 32-39: the filtered, not yet sorted frame. *)
Definition filtered (df : DataFrame) : result Frame :=
  '(hs, cs) ← select_columns df;
  df1 ← cleaned hs cs;
  Ok (drop_empty df1).

(** Lines 32-42 of [main]: step 2 (validate / clean) and step 3 (sort). *)
Definition normalize (df : DataFrame) : result Frame :=
  df2 ← filtered df;
  df3 ← sort_values_desc df2;
  Ok (reset_index df3).

(** The count one cell ends up with (line 36, element-wise). *)
Definition coerce_count (o : pyobj) : result Z :=
  astype_int1 (fillna0 (to_numeric o)).

End Pipeline.

(** ** Files, export and report *)

Inductive content : Type :=
  | Text (s : pystr)       (* written through a text handle, UTF-8 *)
  | Binary (b : list N).   (* workbook or image bytes *)

(** The files of the file system, by path.  Directories hold no data and
    are not represented. *)
Abbreviation FS := (gmap pystr content).

Inductive sheet_ref : Type :=
  | SheetName (s : pystr)
  | SheetIndex (n : nat).

(** A computation on the file system that may raise. *)
Definition io (A : Type) : Type := FS -> result A * FS.

Global Instance io_ret : MRet io := fun A a fs => (Ok a, fs).
Global Instance io_bind : MBind io := fun A B f m fs =>
  match m fs with
  | (Ok a, fs') => f a fs'
  | (Raise e, fs') => (Raise e, fs')
  end.

Definition lift {A} (r : result A) : io A := fun fs => (r, fs).

Definition read_file (path : pystr) : io content :=
  fun fs => (of_option FileNotFoundError (fs !! path), fs).

(** [open(path, "w")] followed by one write, or a whole-file write. *)
Definition write_file (path : pystr) (c : content) : io unit :=
  fun fs => (Ok (), <[path := c]> fs).

(** [f.write(s)] on a handle opened by [write_file path (Text [])]. *)
Definition append_text (path : pystr) (s : pystr) : io unit :=
  fun fs =>
    match fs !! path with
    | Some (Text t) => (Ok (), <[path := Text (t ++ s)]> fs)
    | _ => (Ok (), <[path := Text s]> fs)
    end.

(** [os.makedirs(outdir, exist_ok=True)]: creates no file; refuses a path
    that is an existing file.  Directories are not represented, so the two
    other refusals of [os.makedirs] are not modelled: the empty path
    ([FileNotFoundError]) and a path below a regular file
    ([NotADirectoryError]) are accepted here. *)
Definition makedirs (path : pystr) : io unit :=
  fun fs =>
    match fs !! path with
    | Some _ => (Raise FileExistsError, fs)
    | None => (Ok (), fs)
    end.

Definition sep : N := 47%N.

(** [os.path.join(a, b)] (POSIX). *)
Definition startswith_sep (b : pystr) : bool :=
  match b with
  | c :: _ => (c =? sep)%N
  | [] => false
  end.

Definition endswith_sep (a : pystr) : bool :=
  match last a with
  | Some d => (d =? sep)%N
  | None => false
  end.

Definition path_join (a b : pystr) : pystr :=
  if startswith_sep b then b
  else if bool_decide (a = []) || endswith_sep a then a ++ b
  else a ++ sep :: b.

Definition nl : pystr := [10%N].

(** The fixed file names of the four artifacts. *)
Definition cleaned_csv_name : pystr := py "top_hashtags_cleaned.csv".
Definition bar_png_name : pystr := py "top_hashtags_bar.png".
Definition pie_png_name : pystr := py "top_hashtags_pie.png".
Definition report_name : pystr := py "REPORT.md".

Definition report_title : pystr :=
  py "# Trending Hashtags " ++ [8211%N] ++ py " Auto Report" ++ nl ++ nl.
Definition report_preview_heading : pystr := py "## Top 10 (preview)" ++ nl ++ nl.
Definition report_charts_heading : pystr := nl ++ nl ++ py "## Charts" ++ nl ++ nl.
Definition report_bar_image : pystr :=
  py "![Bar Chart](./top_hashtags_bar.png)" ++ nl ++ nl.
Definition report_pie_image : pystr :=
  py "![Pie Chart](./top_hashtags_pie.png)" ++ nl.

Section Program.

Variable floatify : pystr -> option float64.
Variable float_repr : Q -> pystr.
Variable cast_overflow : Q -> Z.
Variable argsort : list Z -> list nat.

(** [pd.read_excel] on the bytes of a workbook. *)
Variable read_workbook : content -> sheet_ref -> result DataFrame.

(** The [csv] module's rendering of one text field (quoting included). *)
Variable csv_field : pystr -> pystr.

(** matplotlib: the PNG bytes of each chart. *)
Variable render_bar : Frame -> result (list N).
Variable render_pie : Frame -> result (list N).

(** [DataFrame.to_markdown(index=False)]. *)
Variable to_markdown : Frame -> result pystr.

Definition read_excel (input_path : pystr) (sheet : sheet_ref) : io DataFrame :=
  c ← read_file input_path;
  lift (read_workbook c sheet).

(** [df.to_csv(path, index=False)]: a header line, then one line per
    row. *)
Definition csv_line (r : Row) : pystr :=
  csv_field (row_hashtag r) ++ py "," ++ str_int (row_count r) ++ nl.

Definition to_csv (df : Frame) : pystr :=
  py "Hashtag,Count" ++ nl ++ concat (csv_line <$> df).

(** Step 7 of [main]: the writes inside the [with] block, in order. *)
Definition write_report (md_path : pystr) (df : Frame) : io unit :=
  write_file md_path (Text []);;
  append_text md_path report_title;;
  append_text md_path report_preview_heading;;
  table ← lift (to_markdown (head 10 df));
  append_text md_path table;;
  append_text md_path report_charts_heading;;
  append_text md_path report_bar_image;;
  append_text md_path report_pie_image.

(** [sheet_name if sheet_name else 0]. *)
Definition sheet_of (sheet_name : option pystr) : sheet_ref :=
  match sheet_name with
  | Some (c :: s) => SheetName (c :: s)
  | _ => SheetIndex 0
  end.

(** [main]; the value returned is the list of the four paths it prints. *)
Definition main (input_path : pystr) (sheet_name : option pystr)
    (outdir : pystr) : io (list pystr) :=
  makedirs outdir;;
  raw ← read_excel input_path (sheet_of sheet_name);
  df ← lift (normalize floatify float_repr cast_overflow argsort raw);
  let cleaned_csv := path_join outdir cleaned_csv_name in
  write_file cleaned_csv (Text (to_csv df));;
  bar ← lift (render_bar df);
  let bar_path := path_join outdir bar_png_name in
  write_file bar_path (Binary bar);;
  pie ← lift (render_pie df);
  let pie_path := path_join outdir pie_png_name in
  write_file pie_path (Binary pie);;
  let md_path := path_join outdir report_name in
  write_report md_path df;;
  mret [cleaned_csv; bar_path; pie_path; md_path].

End Program.

(** ** Sorting routines *)

(** What [sort_values] relies on from [argsort]: the result lists every
    position once, and the values read in that order are ascending.
    Nothing is promised about the order of equal values: of the sort
    kinds pandas offers, only ["mergesort"] and ["stable"] are stable, and
    [main] asks for neither. *)
Definition argsort_spec (argsort : list Z -> list nat) : Prop :=
  forall v : list Z,
    argsort v ≡ₚ seq 0 (length v) /\
    Sorted Z.le ((fun i => v !!! i) <$> argsort v).

(** Order on (value, position) pairs: by value, ties by position. *)
Definition key_le (a b : Z * nat) : Prop :=
  a.1 < b.1 \/ (a.1 = b.1 /\ (a.2 <= b.2)%nat).

(** The same, ties by position from the right. *)
Definition key_le_rev (a b : Z * nat) : Prop :=
  a.1 < b.1 \/ (a.1 = b.1 /\ (b.2 <= a.2)%nat).

Global Instance key_le_dec a b : Decision (key_le a b).
Proof. unfold key_le. apply _. Defined.

Global Instance key_le_rev_dec a b : Decision (key_le_rev a b).
Proof. unfold key_le_rev. apply _. Defined.

Definition keyed (v : list Z) : list (Z * nat) := zip v (seq 0 (length v)).

(** A stable argsort ([kind="stable"]): merge sort on (value, position). *)
Definition stable_argsort (v : list Z) : list nat :=
  snd <$> merge_sort key_le (keyed v).

(** An argsort that lists equal values from right to left. *)
Definition reversing_argsort (v : list Z) : list nat :=
  snd <$> merge_sort key_le_rev (keyed v).

(** numpy's generic [aquicksort_] (npysort/quicksort.cpp), the scalar
    routine behind [argsort(kind="quicksort")]: an introsort over the array
    of positions [tosort], with median-of-three partitioning, insertion
    sort on ranges of at most 17 positions and heap sort once the depth
    limit is used up.  Pointers into [tosort] are offsets.  Builds that
    dispatch to a vectorised sort run another routine under the same
    contract; the properties below that hold for every sheet are stated
    against [argsort_spec], and this routine serves to evaluate the
    pipeline on given sheets. *)
Module Npy.

Definition SMALL_QUICKSORT : Z := 16.

Section Argsort.

Variable v : list Z.

(** [*p], [v[*p]] and [*p = x]. *)
Definition deref (tosort : list nat) (p : Z) : nat := tosort !!! Z.to_nat p.
Definition val (tosort : list nat) (p : Z) : Z := v !!! deref tosort p.
Definition store (tosort : list nat) (p : Z) (x : nat) : list nat :=
  <[Z.to_nat p := x]> tosort.

(** [INTP_SWAP( *p, *q )]. *)
Definition swap (tosort : list nat) (p q : Z) : list nat :=
  store (store tosort p (deref tosort q)) q (deref tosort p).

(** [do { ++pi; } while (less(v[*pi], vp));] *)
Fixpoint scan_up (fuel : nat) (ts : list nat) (vp pi : Z) : Z :=
  match fuel with
  | O => pi
  | S f =>
      let pi := pi + 1 in
      if val ts pi <? vp then scan_up f ts vp pi else pi
  end.

(** [do { --pj; } while (less(vp, v[*pj]));] *)
Fixpoint scan_down (fuel : nat) (ts : list nat) (vp pj : Z) : Z :=
  match fuel with
  | O => pj
  | S f =>
      let pj := pj - 1 in
      if vp <? val ts pj then scan_down f ts vp pj else pj
  end.

(** The [for (;;)] loop of the partition. *)
Fixpoint partition_loop (fuel : nat) (ts : list nat) (vp pi pj : Z)
  : list nat * Z :=
  match fuel with
  | O => (ts, pi)
  | S f =>
      let pi := scan_up (length ts) ts vp pi in
      let pj := scan_down (length ts) ts vp pj in
      if pj <=? pi then (ts, pi)
      else partition_loop f (swap ts pi pj) vp pi pj
  end.

(** One pass of the body of [while ((pr - pl) > SMALL_QUICKSORT)], up
    to the final position [pi] of the pivot. *)
Definition partition (ts : list nat) (pl pr : Z) : list nat * Z :=
  let pm := pl + Z.shiftr (pr - pl) 1 in
  let ts := if val ts pm <? val ts pl then swap ts pm pl else ts in
  let ts := if val ts pr <? val ts pm then swap ts pr pm else ts in
  let ts := if val ts pm <? val ts pl then swap ts pm pl else ts in
  let vp := val ts pm in
  let pj := pr - 1 in
  let ts := swap ts pm pj in
  let '(ts, pi) := partition_loop (length ts) ts vp pl pj in
  (swap ts pi (pr - 1), pi).

(** [while (pj > pl && less(vp, v[*pk])) { *pj-- = *pk--; }] with
    [pk = pj - 1]. *)
Fixpoint shift_right (fuel : nat) (ts : list nat) (pl vp pj : Z)
  : list nat * Z :=
  match fuel with
  | O => (ts, pj)
  | S f =>
      if (pl <? pj) && (vp <? val ts (pj - 1))
      then shift_right f (store ts pj (deref ts (pj - 1))) pl vp (pj - 1)
      else (ts, pj)
  end.

(** [for (pi = pl + 1; pi <= pr; ++pi)]: the insertion sort. *)
Fixpoint insertion (fuel : nat) (ts : list nat) (pl pr pi : Z) : list nat :=
  match fuel with
  | O => ts
  | S f =>
      if pi <=? pr then
        let vi := deref ts pi in
        let '(ts, pj) := shift_right (length ts) ts pl (v !!! vi) pi in
        insertion f (store ts pj vi) pl pr (pi + 1)
      else ts
  end.

(** Heap sort of the [n] positions from [pl]; [a = tosort + pl - 1] is
    indexed from 1. *)
Definition a_get (ts : list nat) (pl k : Z) : nat := deref ts (pl + k - 1).
Definition a_set (ts : list nat) (pl k : Z) (x : nat) : list nat :=
  store ts (pl + k - 1) x.

Fixpoint sift (fuel : nat) (ts : list nat) (pl n : Z) (tmp : nat) (i j : Z)
  : list nat :=
  match fuel with
  | O => a_set ts pl i tmp
  | S f =>
      if j <=? n then
        let j :=
          if (j <? n) && (v !!! a_get ts pl j <? v !!! a_get ts pl (j + 1))
          then j + 1 else j in
        if v !!! tmp <? v !!! a_get ts pl j
        then sift f (a_set ts pl i (a_get ts pl j)) pl n tmp j (j + j)
        else a_set ts pl i tmp
      else a_set ts pl i tmp
  end.

Fixpoint heapify (fuel : nat) (ts : list nat) (pl n l : Z) : list nat :=
  match fuel with
  | O => ts
  | S f =>
      if 0 <? l then
        heapify f (sift (length ts) ts pl n (a_get ts pl l) l (Z.shiftl l 1))
          pl n (l - 1)
      else ts
  end.

Fixpoint extract (fuel : nat) (ts : list nat) (pl n : Z) : list nat :=
  match fuel with
  | O => ts
  | S f =>
      if 1 <? n then
        let tmp := a_get ts pl n in
        let ts := a_set ts pl n (a_get ts pl 1) in
        extract f (sift (length ts) ts pl (n - 1) tmp 1 2) pl (n - 1)
      else ts
  end.

Definition aheapsort (ts : list nat) (pl n : Z) : list nat :=
  extract (length ts) (heapify (length ts) ts pl n (Z.shiftr n 1)) pl n.

(** [while ((pr - pl) > SMALL_QUICKSORT)]: partition, push the larger
    side with the decremented depth, continue on the smaller. *)
Fixpoint partition_phase (fuel : nat) (ts : list nat) (pl pr : Z)
    (stack : list (Z * Z * Z)) (cdepth : Z)
  : list nat * Z * Z * list (Z * Z * Z) :=
  match fuel with
  | O => (ts, pl, pr, stack)
  | S f =>
      if SMALL_QUICKSORT <? pr - pl then
        let '(ts, pi) := partition ts pl pr in
        let cdepth := cdepth - 1 in
        if pi - pl <? pr - pi
        then partition_phase f ts pl (pi - 1) ((pi + 1, pr, cdepth) :: stack) cdepth
        else partition_phase f ts (pi + 1) pr ((pl, pi - 1, cdepth) :: stack) cdepth
      else (ts, pl, pr, stack)
  end.

(** The outer [while (1)] with its [stack_pop]. *)
Fixpoint run (fuel : nat) (ts : list nat) (pl pr : Z)
    (stack : list (Z * Z * Z)) (cdepth : Z) : list nat :=
  match fuel with
  | O => ts
  | S f =>
      let '(ts, stack) :=
        if cdepth <? 0 then (aheapsort ts pl (pr - pl + 1), stack)
        else
          let '(ts, pl, pr, stack) :=
            partition_phase (length ts) ts pl pr stack cdepth in
          (insertion (length ts) ts pl pr (pl + 1), stack) in
      match stack with
      | [] => ts
      | (pl, pr, cdepth) :: stack => run f ts pl pr stack cdepth
      end
  end.

End Argsort.

(** [np.argsort(v, kind="quicksort")]: [tosort] starts as [0 .. n-1]. *)
Definition aquicksort (v : list Z) : list nat :=
  let num := Z.of_nat (length v) in
  run v (S (length v)) (seq 0 (length v)) 0 (num - 1) [] (Z.log2 num * 2).

End Npy.

(** ** Instances of the remaining parameters, to run the model *)

Fixpoint digits_value (acc : Z) (s : pystr) : option Z :=
  match s with
  | [] => Some acc
  | c :: s' =>
      if ((48 <=? c) && (c <=? 57))%N
      then digits_value (10 * acc + Z.of_N (c - 48)) s'
      else None
  end.

Definition is_inf_word (s : pystr) : bool :=
  bool_decide (lower s = py "inf") || bool_decide (lower s = py "infinity").

(** A parser for the examples, not pandas' own: it accepts signed decimal
    integers and the spellings of infinity and nothing else.  On the texts
    of the sheets below ([bad], [N/A], [inf]) it answers as pandas does;
    it rejects texts pandas parses, such as [3.7], [1e3] or a number
    between spaces.  The theorems hold for every parser; this one only
    runs them on the examples. *)
Definition floatify_int (s : pystr) : option float64 :=
  match s with
  | [] => None
  | 45%N :: (_ :: _) as d =>
      if is_inf_word d then Some (Inf true)
      else (fun z => Fin (inject_Z (- z))) <$> digits_value 0 d
  | 43%N :: (_ :: _) as d =>
      if is_inf_word d then Some (Inf false)
      else (fun z => Fin (inject_Z z)) <$> digits_value 0 d
  | _ =>
      if is_inf_word s then Some (Inf false)
      else (fun z => Fin (inject_Z z)) <$> digits_value 0 s
  end.

(** The conversion of an out-of-range double on x86-64: the "integer
    indefinite" value. *)
Definition x86_indefinite (q : Q) : Z := - 2 ^ 63.

(** Python's [str] of a float of integral value below 10^16: the integer
    followed by [.0]. *)
Definition float_repr_integral (q : Q) : pystr := str_int (trunc q) ++ py ".0".

(** The [csv] module's minimal quoting under pandas' defaults: a field
    holding the delimiter, the quote character or a line break is quoted,
    its quote characters doubled. *)
Definition csv_special (c : N) : bool :=
  ((c =? 44) || (c =? 34) || (c =? 10) || (c =? 13))%N.

Definition csv_quote_minimal (s : pystr) : pystr :=
  if existsb csv_special s
  then 34%N :: (c ← s; if (c =? 34)%N then [34%N; 34%N] else [c]) ++ [34%N]
  else s.

(** A decoder that reads every binary file as the workbook [df]. *)
Definition decode_as (df : DataFrame) (c : content) (sheet : sheet_ref)
  : result DataFrame :=
  match c with
  | Binary _ => Ok df
  | Text _ => Raise (LibraryError (py "not a workbook"))
  end.

(** A renderer that draws nothing: the PNG signature alone. *)
Definition blank_png (df : Frame) : result (list N) :=
  Ok [137; 80; 78; 71; 13; 10; 26; 10]%N.

(** A pipe table without padding: header, rule, one line per row. *)
Definition plain_markdown (df : Frame) : result pystr :=
  Ok (py "| Hashtag | Count |" ++ nl ++ py "|:---|---:|"
      ++ concat ((fun r => nl ++ py "| " ++ row_hashtag r ++ py " | "
                           ++ str_int (row_count r) ++ py " |") <$> df)).

(** ** Sheets used in the examples *)

(** A sheet with the two columns under their canonical names. *)
Definition sheet (hashtags counts : list pyobj) : DataFrame :=
  [(OStr (py "Hashtag"), hashtags); (OStr (py "Count"), counts)].

Definition text (s : string) : pyobj := OStr (py s).

(** The end-to-end scenario of the specification. *)
Definition scenario_sheet : DataFrame :=
  sheet [text "#ai"; text "#ai "; text " "; text "#ml"]
        [OInt 120; OInt 95; OInt 50; text "bad"].

Definition scenario_table : Frame :=
  [(0%nat, (py "#ai", 120)); (1%nat, (py "#ai", 95)); (2%nat, (py "#ml", 0))].

(** Eighteen hashtags with the same count. *)
Definition tie_sheet : DataFrame :=
  sheet (text <$> ["#a"; "#b"; "#c"; "#d"; "#e"; "#f"; "#g"; "#h"; "#i";
                   "#j"; "#k"; "#l"; "#m"; "#n"; "#o"; "#p"; "#q"; "#r"]%string)
        (replicate 18 (OInt 1)).

(** A negative count, a count spelled [inf], a missing hashtag. *)
Definition negative_sheet : DataFrame := sheet [text "#ai"] [OInt (-5)].
Definition inf_sheet : DataFrame := sheet [text "#ai"] [text "inf"].
Definition missing_sheet : DataFrame :=
  sheet [OFloat NaN; text "#ai"] [OInt 7; text "N/A"].

(** Counts with a fractional part: -3.7, a text that is no number, -0.5. *)
Definition fraction_sheet : DataFrame :=
  sheet [text "#a"; text "#b "; text "#c"]
        [OFloat (Fin (-37 # 10)); text "N/A"; OFloat (Fin (-1 # 2))].

(** The scenario under upper-case labels, and a sheet without a count
    column. *)
Definition upper_sheet : DataFrame :=
  [(text "HASHTAG", [text "#ai"; text "#ai "; text " "; text "#ml"]);
   (text "COUNT", [OInt 120; OInt 95; OInt 50; text "bad"])].

Definition no_count_sheet : DataFrame :=
  [(text "Tag", [text "#ai"]); (text "Hashtag", [text "#ml"])].

(** Twelve hashtags with counts 12 down to 1. *)
Definition twelve_sheet : DataFrame :=
  sheet ((fun i => OStr (py "#h" ++ str_int (Z.of_nat i))) <$> seq 1 12)
        ((fun i => OInt (13 - Z.of_nat i)) <$> seq 1 12).

Definition twelve_table : Frame :=
  (fun i => (i, (py "#h" ++ str_int (Z.of_nat (S i)), 12 - Z.of_nat i))) <$> seq 0 12.

(** The preview [plain_markdown] prints for the first ten of them. *)
Definition twelve_preview : pystr :=
  py "| Hashtag | Count |" ++ nl ++ py "|:---|---:|" ++ nl
  ++ py "| #h1 | 12 |" ++ nl ++ py "| #h2 | 11 |" ++ nl ++ py "| #h3 | 10 |" ++ nl
  ++ py "| #h4 | 9 |" ++ nl ++ py "| #h5 | 8 |" ++ nl ++ py "| #h6 | 7 |" ++ nl
  ++ py "| #h7 | 6 |" ++ nl ++ py "| #h8 | 5 |" ++ nl ++ py "| #h9 | 4 |" ++ nl
  ++ py "| #h10 | 3 |".

(** A file system holding one workbook. *)
Definition sample_fs : FS := {[ py "data/top_hashtags.xlsx" := Binary [80; 75; 3; 4]%N ]}.

(** ** Vocabulary of the properties *)

(** The rows of a frame without their index labels. *)
Definition rows (df : Frame) : list (pystr * Z) := snd <$> df.

(** Descending order of counts between two rows. *)
Definition count_ge (a b : Row) : Prop := row_count b <= row_count a.

(** Rows of equal count appear in [t] in the order they have in [f]. *)
Definition ties_in_order (f t : Frame) : Prop :=
  forall c : Z, filter (fun r => r.2 = c) (rows t) = filter (fun r => r.2 = c) (rows f).




(** A sequence of whole-file writes, applied in order. *)
Definition apply_writes (fs : FS) (ws : list (pystr * content)) : FS :=
  foldl (fun m w => <[w.1 := w.2]> m) fs ws.

(** The value of a computation that did not raise. *)
Definition table_of {A} (r : result A) : option A :=
  match r with
  | Ok a => Some a
  | Raise _ => None
  end.

(** ** Vocabulary of the further properties *)

(** The text of a label whose lowered form is [k]. *)
Definition matches (k : pystr) (o : pyobj) : option pystr :=
  match o with
  | OStr s => if bool_decide (lower s = k) then Some s else None
  | _ => None
  end.

(** The label of the last column whose lowered label is [k]. *)
Definition resolve (k : pystr) (cols : list pyobj) : option pystr :=
  last (omap (matches k) cols).

Definition is_text (o : pyobj) : bool :=
  match o with
  | OStr _ => true
  | _ => false
  end.

(** The four output paths of a run. *)
Definition output_paths (outdir : pystr) : list pystr :=
  [path_join outdir cleaned_csv_name; path_join outdir bar_png_name;
   path_join outdir pie_png_name; path_join outdir report_name].

(** Further sheets and routines for the examples: a sheet with a column
    the script has no use for and two spellings of one name, a sheet with
    a numeric header cell, a sheet without data rows, and a renderer and a
    table printer that fail. *)
Definition wide_sheet : DataFrame :=
  [(text "hashtag", [text "old"; text "older"]);
   (text "Source", [text "web"; text "app"]);
   (text "Count", [OInt 3; OInt 8]);
   (text "HASHTAG", [text " #ai"; text "#ml "])].

Definition year_sheet : DataFrame :=
  [(text "Hashtag", [text "#ai"]); (text "Count", [OInt 3]); (OInt 2020, [OInt 1])].

Definition empty_sheet : DataFrame := sheet [] [].

Definition failing_png (df : Frame) : result (list N) :=
  Raise (LibraryError (py "render")).

Definition failing_markdown (df : Frame) : result pystr :=
  Raise (LibraryError (py "tabulate")).

(** * Properties *)

(** ** Text *)

Lemma lstrip_idemp s : lstrip (lstrip s) = lstrip s.
Proof.
  induction s as [|c s IH]; simpl; [done|].
  destruct (isspace c) eqn:E; [done|]. simpl. by rewrite E.
Qed.

Lemma lstrip_snoc s c : isspace c = false -> lstrip (s ++ [c]) = lstrip s ++ [c].
Proof.
  intros Hc. induction s as [|d s IH]; simpl.
  - by rewrite Hc.
  - destruct (isspace d); [apply IH|done].
Qed.

Lemma rstrip_idemp s : rstrip (rstrip s) = rstrip s.
Proof. unfold rstrip. by rewrite reverse_involutive, lstrip_idemp. Qed.

Lemma rstrip_cons c s : isspace c = false -> rstrip (c :: s) = c :: rstrip s.
Proof.
  intros Hc. unfold rstrip.
  by rewrite reverse_cons, lstrip_snoc, reverse_app by done.
Qed.

Lemma lstrip_head s : lstrip s = [] \/ exists c t, lstrip s = c :: t /\ isspace c = false.
Proof.
  induction s as [|c s IH]; simpl; [by left|].
  destruct (isspace c) eqn:E; [done|]. right. by exists c, s.
Qed.

Lemma strip_idemp s : strip (strip s) = strip s.
Proof.
  unfold strip. destruct (lstrip_head s) as [->|(c & t & -> & Hc)]; [done|].
  rewrite rstrip_cons by done. simpl. rewrite Hc.
  by rewrite <- rstrip_cons, rstrip_idemp.
Qed.

Lemma trunc_inject_Z z : trunc (inject_Z z) = z.
Proof. unfold trunc, inject_Z. simpl. apply Z.quot_1_r. Qed.

Lemma cast_int64_in_range (cast_overflow : Q -> Z) (q : Q) :
  in_int64 (trunc q) = true -> cast_int64 cast_overflow q = trunc q.
Proof. intros H. unfold cast_int64. by rewrite H. Qed.

(** The pieces on small inputs. *)

Example strip_spaces : strip (py "  #ai ") = py "#ai".
Proof. reflexivity. Qed.

Example strip_no_break_space : strip [160%N; 35%N; 97%N; 12288%N] = [35%N; 97%N].
Proof. reflexivity. Qed.

Example strip_blank : strip (py " ") = [].
Proof. reflexivity. Qed.

Example lower_mixed : lower (py "HashTag") = py "hashtag".
Proof. reflexivity. Qed.

Example str_int_negative : str_int (-5) = py "-5".
Proof. reflexivity. Qed.

Example trunc_toward_zero : trunc (37 # 10) = 3 /\ trunc (-37 # 10) = -3.
Proof. split; reflexivity. Qed.

Example cast_in_range : cast_int64 x86_indefinite (-37 # 10) = -3.
Proof. reflexivity. Qed.

Example cast_out_of_range : cast_int64 x86_indefinite (inject_Z (10 ^ 30)) = - 2 ^ 63.
Proof. reflexivity. Qed.

Example find_columns_scenario :
  find_columns scenario_sheet = Ok (py "Hashtag", py "Count").
Proof. vm_compute; reflexivity. Qed.

Example find_columns_last_wins :
  find_columns [(text "hashtag", []); (text "Count", []); (text "HASHTAG", [])]
  = Ok (py "HASHTAG", py "Count").
Proof. vm_compute; reflexivity. Qed.

(** A header cell that is a number has no [.lower()]. *)
Example find_columns_number_label :
  find_columns [(OInt 2020, []); (text "Count", [])] = Raise AttributeError.
Proof. vm_compute; reflexivity. Qed.

Example path_join_plain :
  path_join (py "outputs") report_name = py "outputs/REPORT.md".
Proof. vm_compute; reflexivity. Qed.

Example path_join_trailing_sep :
  path_join (py "outputs/") report_name = py "outputs/REPORT.md".
Proof. vm_compute; reflexivity. Qed.

Example to_csv_scenario :
  to_csv csv_quote_minimal scenario_table
  = py "Hashtag,Count" ++ nl ++ py "#ai,120" ++ nl ++ py "#ai,95" ++ nl
    ++ py "#ml,0" ++ nl.
Proof. vm_compute; reflexivity. Qed.

Example aquicksort_small :
  Npy.aquicksort [5; 3; 9; 3; 1] = [4; 1; 3; 0; 2]%nat.
Proof. vm_compute; reflexivity. Qed.

(** ** Positional selection *)

Lemma take_Ok {A} (indexer : list nat) (l l' : list A) :
  take indexer l = Ok l' <-> Forall2 (fun i x => l !! i = Some x) indexer l'.
Proof.
  unfold take. rewrite <- mapM_Some.
  destruct (mapM _ indexer); simpl; split; congruence.
Qed.

Lemma take_in_range {A} (indexer : list nat) (l : list A) :
  Forall (fun i => (i < length l)%nat) indexer -> exists l', take indexer l = Ok l'.
Proof.
  intros H. unfold take.
  assert (is_Some (mapM (fun i => l !! i) indexer)) as [l' ->].
  { apply mapM_is_Some. eapply Forall_impl; [exact H|].
    intros i Hi. by apply lookup_lt_is_Some_2. }
  by exists l'.
Qed.

Lemma take_fmap {A} `{Inhabited A} (indexer : list nat) (l l' : list A) :
  take indexer l = Ok l' -> l' = (fun i => l !!! i) <$> indexer.
Proof.
  rewrite take_Ok. induction 1 as [|i x idx l' Hi _ IH]; simpl; [done|].
  f_equal; [|done]. symmetry. by apply list_lookup_total_correct.
Qed.

Lemma fmap_lookup_total_seq {A} `{Inhabited A} (l : list A) :
  (fun i => l !!! i) <$> seq 0 (length l) = l.
Proof.
  apply list_eq. intros i. rewrite list_lookup_fmap.
  destruct (decide (i < length l)%nat) as [Hi|Hi].
  - rewrite lookup_seq_lt by done. simpl.
    destruct (lookup_lt_is_Some_2 l i Hi) as [x Hx].
    by rewrite Hx, (list_lookup_total_correct _ _ _ Hx).
  - rewrite lookup_seq_ge, lookup_ge_None_2 by lia. done.
Qed.

Lemma perm_seq_in_range (indexer : list nat) n :
  indexer ≡ₚ seq 0 n -> Forall (fun i => (i < n)%nat) indexer.
Proof.
  intros Hp. rewrite Hp. apply Forall_forall. intros i Hi.
  apply elem_of_seq in Hi. lia.
Qed.

(** Taking a permutation of all positions succeeds and permutes the list. *)
Lemma take_perm {A} (indexer : list nat) (l : list A) :
  indexer ≡ₚ seq 0 (length l) ->
  exists l', take indexer l = Ok l' /\ l' ≡ₚ l.
Proof.
  intros Hp.
  destruct (take_in_range indexer l) as [l' Hl'].
  { by apply perm_seq_in_range. }
  exists l'. split; [done|].
  destruct l as [|a l0].
  - apply take_Ok in Hl'. simpl in Hp. apply Permutation_nil_r in Hp. subst.
    by inv Hl'.
  - pose (Inh := populate a).
    rewrite (take_fmap _ _ _ Hl'), Hp. by rewrite fmap_lookup_total_seq.
Qed.

(** ** Ordering *)

Lemma Sorted_fmap_inv {A B} (R : relation B) (f : A -> B) (l : list A) :
  Sorted R (f <$> l) -> Sorted (fun x y => R (f x) (f y)) l.
Proof.
  induction l as [|x l IH]; simpl; intros Hs; [constructor|].
  apply Sorted_inv in Hs as [Hs Hhd]. constructor; [by apply IH|].
  destruct l; simpl in *; constructor. by inv Hhd.
Qed.

Lemma Sorted_mono {A} (R1 R2 : relation A) (l : list A) :
  (forall x y, R1 x y -> R2 x y) -> Sorted R1 l -> Sorted R2 l.
Proof.
  intros HR. induction 1 as [|x l _ IH Hhd]; constructor; [done|].
  destruct Hhd; constructor. by apply HR.
Qed.

Lemma Sorted_fmap_2 {A B} (R : relation B) (f : A -> B) (l : list A) :
  Sorted (fun x y => R (f x) (f y)) l -> Sorted R (f <$> l).
Proof.
  induction 1 as [|x l _ IH Hhd]; simpl; constructor; [done|].
  destruct Hhd; simpl; by constructor.
Qed.

Lemma reverse_lookup_total {A} `{Inhabited A} (l : list A) i :
  (i < length l)%nat -> reverse l !!! i = l !!! (length l - S i)%nat.
Proof.
  intros Hi. apply list_lookup_total_correct.
  rewrite reverse_lookup by done.
  apply list_lookup_lookup_total_lt. lia.
Qed.

Section Ordering.

Variable argsort : list Z -> list nat.
Hypothesis argsort_ok : argsort_spec argsort.

Lemma nargsort_desc_ok (items : list Z) :
  exists indexer,
    nargsort_desc argsort items = Ok indexer /\
    indexer ≡ₚ seq 0 (length items) /\
    Sorted (flip Z.le) ((fun i => items !!! i) <$> indexer).
Proof.
  destruct (argsort_ok (reverse items)) as [Hperm Hsorted].
  rewrite length_reverse in Hperm.
  set (n := length items) in *.
  destruct (take_perm (argsort (reverse items)) (reverse (seq 0 n)))
    as (idx & Htake & Hidx).
  { by rewrite length_reverse, length_seq. }
  exists (reverse idx). unfold nargsort_desc. fold n. rewrite Htake. simpl.
  split; [done|]. split.
  { by rewrite reverse_Permutation, Hidx, reverse_Permutation. }
  rewrite fmap_reverse. apply Sorted_reverse.
  rewrite (take_fmap _ _ _ Htake), <- list_fmap_compose.
  erewrite (proj1 (Forall_fmap_ext _ _ _)); [exact Hsorted|].
  eapply Forall_impl; [apply (perm_seq_in_range _ n Hperm)|].
  intros i Hi. simpl in *.
  rewrite !reverse_lookup_total by (rewrite ?length_seq; done).
  rewrite length_seq. fold n.
  rewrite (list_lookup_total_correct (seq 0 n) (n - S i) (n - S i)%nat); [done|].
  apply lookup_seq. lia.
Qed.

Lemma sort_values_desc_ok (df : Frame) :
  exists df3,
    sort_values_desc argsort df = Ok df3 /\ df3 ≡ₚ df /\ Sorted count_ge df3.
Proof.
  destruct (nargsort_desc_ok (row_count <$> df)) as (indexer & Hn & Hperm & Hs).
  rewrite length_fmap in Hperm.
  destruct (take_perm indexer df Hperm) as (df3 & Htake & Hdf3).
  exists df3. unfold sort_values_desc. rewrite Hn. simpl.
  split; [done|]. split; [done|].
  unfold count_ge. apply (Sorted_fmap_inv (flip Z.le) row_count).
  rewrite (take_fmap _ _ _ Htake), <- list_fmap_compose.
  erewrite (proj1 (Forall_fmap_ext _ _ _)); [exact Hs|].
  eapply Forall_impl; [apply (perm_seq_in_range _ _ Hperm)|].
  intros i Hi. simpl in *.
  by rewrite (list_lookup_total_fmap row_count df i Hi).
Qed.

End Ordering.

Lemma reset_index_rows (df : Frame) : rows (reset_index df) = rows df.
Proof.
  unfold rows, reset_index. apply snd_zip. by rewrite length_seq, length_fmap.
Qed.

Lemma reset_index_length (df : Frame) : length (reset_index df) = length df.
Proof.
  unfold reset_index. rewrite length_zip_with, length_seq, length_fmap. lia.
Qed.

Lemma reset_index_index (df : Frame) :
  row_index <$> reset_index df = seq 0 (length (reset_index df)).
Proof.
  rewrite reset_index_length. unfold reset_index.
  apply fst_zip. by rewrite length_seq, length_fmap.
Qed.

Lemma count_ge_rows (t : Frame) :
  Sorted count_ge t <-> Sorted (flip Z.le) (snd <$> rows t).
Proof.
  unfold rows. rewrite <- list_fmap_compose. split.
  - intros Hs. by apply (Sorted_fmap_2 (flip Z.le) (snd ∘ snd)).
  - intros Hs. by apply (Sorted_fmap_inv (flip Z.le) (snd ∘ snd)) in Hs.
Qed.

(** ** The stages of the pipeline *)

Lemma astype_int_Raise (cast_overflow : Q -> Z) (col : list float64) (e : exn) :
  astype_int cast_overflow col = Raise e -> e = IntCastingNaNError.
Proof.
  induction col as [|f col IH]; simpl; [done|].
  destruct (astype_int1 cast_overflow f) as [z|e'] eqn:E; simpl.
  - destruct (astype_int cast_overflow col) as [zs|e']; simpl; [done|].
    intros [= <-]. by apply IH.
  - intros [= <-]. destruct f; simpl in E; congruence.
Qed.

Section Stages.

Variable floatify : pystr -> option float64.
Variable float_repr : Q -> pystr.
Variable cast_overflow : Q -> Z.
Variable argsort : list Z -> list nat.

Lemma coerce_count_cases (o : pyobj) :
  match to_numeric floatify o with
  | NaN => coerce_count floatify cast_overflow o = Ok 0
  | Fin q => coerce_count floatify cast_overflow o = Ok (cast_int64 cast_overflow q)
  | Inf _ => coerce_count floatify cast_overflow o = Raise IntCastingNaNError
  end.
Proof. unfold coerce_count. by destruct (to_numeric floatify o). Qed.

Lemma coerce_count_Ok (o : pyobj) (z : Z) :
  coerce_count floatify cast_overflow o = Ok z ->
  (to_numeric floatify o = NaN /\ z = 0) \/
  (exists q, to_numeric floatify o = Fin q /\ z = cast_int64 cast_overflow q).
Proof.
  pose proof (coerce_count_cases o) as H.
  destruct (to_numeric floatify o) as [q| |]; rewrite H; intros [= <-].
  - right. by exists q.
  - by left.
Qed.

Lemma clean_count_Ok (cs : list pyobj) (zs : list Z) :
  clean_count floatify cast_overflow cs = Ok zs <->
  Forall2 (fun o z => coerce_count floatify cast_overflow o = Ok z) cs zs.
Proof.
  unfold clean_count, coerce_count. revert zs.
  induction cs as [|o cs IH]; intros zs; simpl.
  - split; [intros [= <-]; constructor|by inversion 1].
  - destruct (astype_int1 cast_overflow (fillna0 (to_numeric floatify o)))
      as [z|e] eqn:E; simpl.
    + destruct (astype_int _ _) as [zs'|e]; simpl.
      * split.
        -- intros [= <-]. constructor; [done|]. by apply IH.
        -- inversion 1 as [|???? Ez Hzs]; subst. apply IH in Hzs.
           injection Hzs as ->. congruence.
      * split; [done|]. inversion 1 as [|???? _ Hzs]; subst.
        by apply IH in Hzs.
    + split; [done|]. inversion 1; congruence.
Qed.

Lemma clean_count_total (cs : list pyobj) :
  Forall (fun o => forall b, to_numeric floatify o <> Inf b) cs ->
  exists zs, clean_count floatify cast_overflow cs = Ok zs.
Proof.
  induction 1 as [|o cs Ho _ [zs IH]].
  - by exists [].
  - pose proof (coerce_count_cases o) as Hc.
    destruct (to_numeric floatify o) as [q|b|] eqn:E.
    + exists (cast_int64 cast_overflow q :: zs).
      apply clean_count_Ok. constructor; [done|].
      by apply clean_count_Ok.
    + by destruct (Ho b).
    + exists (0 :: zs). apply clean_count_Ok. constructor; [done|].
      by apply clean_count_Ok.
Qed.

(** The filtered frame in terms of the two selected columns. *)
Lemma filtered_Ok (df : DataFrame) (f : Frame) :
  filtered floatify float_repr cast_overflow df = Ok f <->
  exists hs cs zs,
    select_columns df = Ok (hs, cs) /\
    clean_count floatify cast_overflow cs = Ok zs /\
    f = drop_empty (zip (seq 0 (length hs)) (zip (clean_hashtag float_repr hs) zs)).
Proof.
  unfold filtered, cleaned. split.
  - destruct (select_columns df) as [[hs cs]|e]; simpl; [|done].
    destruct (clean_count floatify cast_overflow cs) as [zs|e] eqn:Hzs; simpl; [|done].
    intros [= <-]. exists hs, cs, zs. unfold clean_hashtag.
    by rewrite length_fmap.
  - intros (hs & cs & zs & -> & Hzs & ->). simpl. rewrite Hzs. simpl.
    unfold clean_hashtag. by rewrite length_fmap.
Qed.

(** The rows that survive the filter, by position in the sheet. *)
Lemma elem_of_rows_drop_empty (H : list pystr) (zs : list Z) (r : pystr * Z) :
  r ∈ rows (drop_empty (zip (seq 0 (length H)) (zip H zs))) <->
  exists i, H !! i = Some r.1 /\ zs !! i = Some r.2 /\ (0 < length r.1)%nat.
Proof.
  unfold rows, drop_empty. rewrite list_elem_of_fmap. split.
  - intros ([i [h z]] & -> & Hin). apply list_elem_of_filter in Hin as [Hne Hin].
    apply list_elem_of_lookup in Hin as [j Hj].
    apply lookup_zip_with_Some in Hj as (? & ? & [= <- <-] & _ & Hj).
    apply lookup_zip_with_Some in Hj as (? & ? & [= <- <-] & ? & ?).
    by exists j.
  - intros (i & Hh & Hz & Hne). exists (i, r). split; [done|].
    apply list_elem_of_filter. split; [done|].
    apply list_elem_of_lookup. exists i.
    apply lookup_zip_with_Some. exists i, r. split; [done|]. split.
    + apply lookup_seq. split; [done|]. by eapply lookup_lt_Some.
    + apply lookup_zip_with_Some. exists r.1, r.2. by destruct r.
Qed.

(** Whatever [argsort] returns, a successful run sorts the filtered frame
    and only selects rows of it. *)
Lemma normalize_Ok_inv (df : DataFrame) (t : Frame) :
  normalize floatify float_repr cast_overflow argsort df = Ok t ->
  exists f,
    filtered floatify float_repr cast_overflow df = Ok f /\
    (forall r, r ∈ rows t -> r ∈ rows f) /\
    row_index <$> t = seq 0 (length t).
Proof.
  unfold normalize.
  destruct (filtered floatify float_repr cast_overflow df) as [f|e]; simpl; [|done].
  destruct (sort_values_desc argsort f) as [df3|e] eqn:Hs; simpl; [|done].
  intros [= <-]. exists f. split; [done|]. split; [|apply reset_index_index].
  rewrite reset_index_rows. unfold sort_values_desc in Hs.
  destruct (nargsort_desc argsort _) as [indexer|e]; simpl in Hs; [|done].
  apply take_Ok in Hs. intros r Hr. unfold rows in *.
  apply list_elem_of_fmap in Hr as (x & -> & Hx).
  apply list_elem_of_fmap_2.
  apply list_elem_of_lookup in Hx as [k Hk].
  destruct (Forall2_lookup_r _ _ _ _ _ Hs Hk) as (i & _ & Hi).
  apply list_elem_of_lookup. by exists i.
Qed.

Hypothesis argsort_ok : argsort_spec argsort.

(** With a sorting routine that meets its contract, normalisation
    succeeds exactly when filtering does. *)
Lemma normalize_of_filtered (df : DataFrame) (f : Frame) :
  filtered floatify float_repr cast_overflow df = Ok f ->
  exists t,
    normalize floatify float_repr cast_overflow argsort df = Ok t /\
    Sorted count_ge t /\
    rows t ≡ₚ rows f /\
    row_index <$> t = seq 0 (length t).
Proof.
  intros Hf. unfold normalize. rewrite Hf. simpl.
  destruct (sort_values_desc_ok argsort argsort_ok f) as (df3 & -> & Hp & Hs).
  simpl. exists (reset_index df3). split; [done|].
  split; [|split; [|apply reset_index_index]].
  - apply count_ge_rows. rewrite reset_index_rows. by apply count_ge_rows.
  - rewrite reset_index_rows. unfold rows. by rewrite Hp.
Qed.

Lemma normalize_Raise (df : DataFrame) (e : exn) :
  filtered floatify float_repr cast_overflow df = Raise e ->
  normalize floatify float_repr cast_overflow argsort df = Raise e.
Proof. intros Hf. unfold normalize. by rewrite Hf. Qed.

End Stages.

(** ** The sorting routines against the contract *)

Lemma keyed_lookup (v : list Z) :
  Forall (fun p : Z * nat => v !! p.2 = Some p.1) (keyed v).
Proof.
  apply Forall_forall. intros [x i] Hin. simpl.
  apply list_elem_of_lookup in Hin as [j Hj].
  apply lookup_zip_with_Some in Hj as (? & ? & [= <- <-] & Hx & Hi).
  apply lookup_seq in Hi as [-> _]. done.
Qed.

Lemma argsort_by_spec (R : relation (Z * nat)) `{forall a b, Decision (R a b)} :
  Total R -> (forall a b, R a b -> a.1 <= b.1) ->
  argsort_spec (fun v => snd <$> merge_sort R (keyed v)).
Proof.
  intros Htot Hle v. split.
  - rewrite merge_sort_Permutation. unfold keyed.
    rewrite snd_zip; [done|]. by rewrite length_seq.
  - rewrite <- list_fmap_compose.
    assert ((fun i => v !!! i) ∘ snd <$> merge_sort R (keyed v)
            = fst <$> merge_sort R (keyed v)) as ->.
    { apply Forall_fmap_ext.
      assert (Forall (fun p : Z * nat => v !! p.2 = Some p.1)
                (merge_sort R (keyed v))) as HF.
      { rewrite merge_sort_Permutation. apply keyed_lookup. }
      eapply Forall_impl; [exact HF|]. intros [x i] Hp. simpl in *.
      by apply list_lookup_total_correct. }
    apply Sorted_fmap_2. eapply Sorted_mono; [|by apply Sorted_merge_sort].
    intros a b. apply Hle.
Qed.

Lemma stable_argsort_spec : argsort_spec stable_argsort.
Proof.
  apply argsort_by_spec.
  - intros [x i] [y j]. unfold key_le. simpl. lia.
  - intros [x i] [y j]. unfold key_le. simpl. lia.
Qed.

Lemma reversing_argsort_spec : argsort_spec reversing_argsort.
Proof.
  apply argsort_by_spec.
  - intros [x i] [y j]. unfold key_le_rev. simpl. lia.
  - intros [x i] [y j]. unfold key_le_rev. simpl. lia.
Qed.

(** ** Rows of the normalised table *)

Lemma rows_filter_snd {A B} (P : B -> Prop) `{forall b, Decision (P b)}
    (l : list (A * B)) :
  snd <$> filter (fun x => P x.2) l = filter P (snd <$> l).
Proof.
  induction l as [|[a b] l IH]; [done|].
  rewrite fmap_cons, !filter_cons, <- IH. simpl.
  by destruct (decide (P b)).
Qed.

Lemma rows_drop_empty (H : list pystr) (zs : list Z) :
  rows (drop_empty (zip (seq 0 (length H)) (zip H zs)))
  = filter (fun r : pystr * Z => (0 < length r.1)%nat) (zip H zs).
Proof.
  unfold rows, drop_empty, row_hashtag.
  etrans.
  { exact (rows_filter_snd (A:=nat) (fun r : pystr * Z => (0 < length r.1)%nat)
             (zip (seq 0 (length H)) (zip H zs))). }
  rewrite snd_zip; [done|].
  rewrite length_seq, length_zip_with. lia.
Qed.

Section Rows.

Variable floatify : pystr -> option float64.
Variable float_repr : Q -> pystr.
Variable cast_overflow : Q -> Z.
Variable argsort : list Z -> list nat.
Hypothesis argsort_ok : argsort_spec argsort.

(** The normalised table holds exactly the cleaned rows whose label is
    not empty. *)
Lemma normalize_rows_perm (df : DataFrame) (hs cs : list pyobj) (t : Frame) :
  select_columns df = Ok (hs, cs) ->
  normalize floatify float_repr cast_overflow argsort df = Ok t ->
  exists zs,
    clean_count floatify cast_overflow cs = Ok zs /\
    rows t ≡ₚ filter (fun r : pystr * Z => (0 < length r.1)%nat)
                (zip (clean_hashtag float_repr hs) zs).
Proof.
  intros Hsel Hn.
  destruct (normalize_Ok_inv _ _ _ _ _ _ Hn) as (f & Hf & _).
  destruct (normalize_of_filtered _ _ _ _ argsort_ok _ _ Hf) as (t' & Ht' & _ & Hp & _).
  assert (t' = t) as -> by congruence.
  apply filtered_Ok in Hf as (hs' & cs' & zs & Hsel' & Hzs & ->).
  assert (hs' = hs /\ cs' = cs) as [-> ->] by (split; congruence).
  exists zs. split; [done|]. rewrite Hp.
  rewrite <- (length_fmap (clean_label float_repr) hs).
  fold (clean_hashtag float_repr hs). by rewrite rows_drop_empty.
Qed.

(** When no count is infinite the run succeeds and keeps every row with
    a non-empty cleaned label, with its coerced count. *)
Lemma normalize_keeps_rows (df : DataFrame) (hs cs : list pyobj) :
  select_columns df = Ok (hs, cs) ->
  Forall (fun o => forall b, to_numeric floatify o <> Inf b) cs ->
  exists t,
    normalize floatify float_repr cast_overflow argsort df = Ok t /\
    forall i h c,
      hs !! i = Some h -> cs !! i = Some c ->
      (0 < length (clean_label float_repr h))%nat ->
      exists z, coerce_count floatify cast_overflow c = Ok z /\
                (clean_label float_repr h, z) ∈ rows t.
Proof.
  intros Hsel Hfin.
  destruct (clean_count_total floatify cast_overflow cs Hfin) as [zs Hzs].
  assert (filtered floatify float_repr cast_overflow df
          = Ok (drop_empty (zip (seq 0 (length hs))
                  (zip (clean_hashtag float_repr hs) zs)))) as Hf.
  { apply filtered_Ok. by exists hs, cs, zs. }
  destruct (normalize_of_filtered _ _ _ _ argsort_ok _ _ Hf) as (t & Ht & _ & Hp & _).
  exists t. split; [done|]. intros i h c Hh Hc Hne.
  apply clean_count_Ok in Hzs.
  destruct (Forall2_lookup_l _ _ _ _ _ Hzs Hc) as (z & Hz & Hcz).
  exists z. split; [done|]. rewrite Hp.
  rewrite <- (length_fmap (clean_label float_repr) hs).
  fold (clean_hashtag float_repr hs).
  apply elem_of_rows_drop_empty. exists i. simpl.
  split; [|done]. unfold clean_hashtag. by rewrite list_lookup_fmap, Hh.
Qed.

(** An infinite count aborts the run at the integer cast. *)
Lemma normalize_inf_raises (df : DataFrame) (hs cs : list pyobj) (o : pyobj) (b : bool) :
  select_columns df = Ok (hs, cs) ->
  o ∈ cs -> to_numeric floatify o = Inf b ->
  normalize floatify float_repr cast_overflow argsort df = Raise IntCastingNaNError.
Proof.
  intros Hsel Ho Hinf. apply normalize_Raise.
  unfold filtered, cleaned. rewrite Hsel. simpl.
  destruct (clean_count floatify cast_overflow cs) as [zs|e] eqn:Hzs; simpl.
  - apply clean_count_Ok in Hzs.
    apply list_elem_of_lookup in Ho as [i Hi].
    destruct (Forall2_lookup_l _ _ _ _ _ Hzs Hi) as (z & _ & Hz).
    pose proof (coerce_count_cases floatify cast_overflow o) as Hc.
    rewrite Hinf in Hc. congruence.
  - f_equal. unfold clean_count in Hzs. by apply astype_int_Raise in Hzs.
Qed.

End Rows.

(** ** Counts that a double holds exactly *)

Lemma below_2_53_in_int64 (z : Z) :
  (- 2 ^ 53 <? z) && (z <? 2 ^ 53) = true -> in_int64 z = true.
Proof.
  unfold in_int64. rewrite !andb_true_iff, Z.leb_le, !Z.ltb_lt.
  change (2 ^ 53) with 9007199254740992.
  change (2 ^ 63) with 9223372036854775808. lia.
Qed.

Lemma trunc_nonneg (q : Q) : 0 <= Qnum q -> 0 <= trunc q.
Proof. intros H. unfold trunc. apply Z.quot_pos; [done|lia]. Qed.

(** Truncation toward zero keeps a value of -1 or less negative, and
    sends a value between -1 and 1 to 0. *)
Lemma trunc_negative (q : Q) : Qle q (inject_Z (-1)) -> trunc q < 0.
Proof.
  unfold Qle, trunc. simpl. intros H.
  assert (Qnum q <= - Z.pos (Qden q)) as H' by lia.
  pose proof (Z.quot_le_mono (Qnum q) (- Z.pos (Qden q)) (Z.pos (Qden q))
                ltac:(lia) H') as Hm.
  rewrite Z.quot_opp_l, Z.quot_same in Hm by lia. lia.
Qed.

Lemma trunc_fraction (q : Q) :
  Qlt (inject_Z (-1)) q -> Qlt q (inject_Z 1) -> trunc q = 0.
Proof.
  unfold Qlt, trunc. simpl. intros Hl Hu.
  destruct (Z.le_gt_cases 0 (Qnum q)) as [Hp|Hn].
  - apply Z.quot_small. lia.
  - rewrite <- (Z.opp_involutive (Qnum q)), Z.quot_opp_l by lia.
    rewrite Z.quot_small by lia. done.
Qed.

(** The count of a cell, read off the cell: 0 for a cell that does not
    parse, the integer itself for an integer cell, the integer part of the
    parsed value for a text and for a float that fits. *)
Lemma coerce_count_exact
    (floatify : pystr -> option float64) (cast_overflow : Q -> Z)
    (c : pyobj) (z : Z) :
  exact_count floatify c = true ->
  coerce_count floatify cast_overflow c = Ok z ->
  (to_numeric floatify c = NaN -> z = 0) /\
  (forall n, c = OInt n -> z = n) /\
  (forall s q, c = OStr s -> floatify s = Some (Fin q) -> z = trunc q) /\
  (forall q, to_numeric floatify c = Fin q -> in_int64 (trunc q) = true ->
             z = trunc q).
Proof.
  intros Hex Hz. pose proof (coerce_count_cases floatify cast_overflow c) as Hc.
  split; [|split; [|split]].
  - intros E. rewrite E in Hc. congruence.
  - intros n ->. simpl in *.
    rewrite cast_int64_in_range in Hc
      by (rewrite trunc_inject_Z; by apply below_2_53_in_int64).
    rewrite trunc_inject_Z in Hc. congruence.
  - intros s q -> E. simpl in *. rewrite E in *. simpl in Hc.
    rewrite cast_int64_in_range in Hc by (by apply below_2_53_in_int64).
    congruence.
  - intros q E Hr. rewrite E, (cast_int64_in_range _ _ Hr) in Hc. congruence.
Qed.

(** Every row of the normalised table comes from one row of the sheet:
    the cleaned label and the coerced count of that row. *)
Lemma normalize_row_source
    (floatify : pystr -> option float64) (float_repr : Q -> pystr)
    (cast_overflow : Q -> Z) (argsort : list Z -> list nat)
    (df : DataFrame) (hs cs : list pyobj) (t : Frame) :
  select_columns df = Ok (hs, cs) ->
  normalize floatify float_repr cast_overflow argsort df = Ok t ->
  forall r, r ∈ rows t ->
    exists i h c,
      hs !! i = Some h /\ cs !! i = Some c /\
      r.1 = clean_label float_repr h /\
      coerce_count floatify cast_overflow c = Ok r.2.
Proof.
  intros Hsel Hn r Hr.
  destruct (normalize_Ok_inv _ _ _ _ _ _ Hn) as (f & Hf & Hsub & _).
  apply filtered_Ok in Hf as (hs' & cs' & zs & Hsel' & Hzs & ->).
  assert (hs' = hs /\ cs' = cs) as [-> ->] by (split; congruence).
  apply clean_count_Ok in Hzs. apply Hsub in Hr.
  rewrite <- (length_fmap (clean_label float_repr) hs) in Hr.
  apply elem_of_rows_drop_empty in Hr as (i & Hh & Hz & _).
  unfold clean_hashtag in Hh. apply list_lookup_fmap_Some in Hh as (h & Hlab & Hh).
  destruct (Forall2_lookup_r _ _ _ _ _ Hzs Hz) as (c & Hc & Hcz).
  by exists i, h, c.
Qed.

(** * The claims *)

(** ** Ordering of the normalised table *)

(** C1, as amended: for every sheet that passes the filter and every
    sorting routine meeting the contract of [argsort], normalisation
    succeeds; the rows of the result are the filtered rows, ordered by
    count in descending numeric order, and their index is [0 .. n-1].  The
    order among rows of equal count is the sorting routine's. *)
Theorem normalize_sorted_reindexed
    (floatify : pystr -> option float64) (float_repr : Q -> pystr)
    (cast_overflow : Q -> Z)
    (argsort : list Z -> list nat) (df : DataFrame) (f : Frame) :
  argsort_spec argsort ->
  filtered floatify float_repr cast_overflow df = Ok f ->
  exists t,
    normalize floatify float_repr cast_overflow argsort df = Ok t /\
    Sorted count_ge t /\
    rows t ≡ₚ rows f /\
    row_index <$> t = seq 0 (length t).
Proof. intros Hspec Hf. by apply normalize_of_filtered. Qed.

Lemma normalize_sorted_reindexed_witness :
  argsort_spec stable_argsort /\
  filtered floatify_int float_repr_integral x86_indefinite scenario_sheet
    = Ok [(0%nat, (py "#ai", 120)); (1%nat, (py "#ai", 95)); (3%nat, (py "#ml", 0))] /\
  exists t,
    normalize floatify_int float_repr_integral x86_indefinite stable_argsort scenario_sheet = Ok t /\
    Sorted count_ge t /\
    rows t ≡ₚ rows [(0%nat, (py "#ai", 120)); (1%nat, (py "#ai", 95)); (3%nat, (py "#ml", 0))] /\
    row_index <$> t = seq 0 (length t).
Proof.
  split; [exact stable_argsort_spec|]. split; [vm_compute; reflexivity|].
  apply (normalize_sorted_reindexed floatify_int float_repr_integral x86_indefinite
           stable_argsort scenario_sheet).
  - exact stable_argsort_spec.
  - vm_compute; reflexivity.
Defined.

(** C1, as stated, fails: with numpy's quicksort, the routine [main]
    selects by default, eighteen rows of equal count do not keep their
    order (rows 3 to 17 come out reversed). *)
Lemma quicksort_reorders_ties :
  exists f t,
    filtered floatify_int float_repr_integral x86_indefinite tie_sheet = Ok f /\
    normalize floatify_int float_repr_integral x86_indefinite Npy.aquicksort tie_sheet = Ok t /\
    row_hashtag <$> f
      = py <$> ["#a"; "#b"; "#c"; "#d"; "#e"; "#f"; "#g"; "#h"; "#i";
                "#j"; "#k"; "#l"; "#m"; "#n"; "#o"; "#p"; "#q"; "#r"]%string /\
    row_hashtag <$> t
      = py <$> ["#a"; "#b"; "#q"; "#p"; "#o"; "#n"; "#m"; "#l"; "#k";
                "#j"; "#i"; "#h"; "#g"; "#f"; "#e"; "#d"; "#c"; "#r"]%string /\
    ~ ties_in_order f t.
Proof.
  eexists _, _. split; [vm_compute; reflexivity|].
  split; [vm_compute; reflexivity|].
  split; [vm_compute; reflexivity|].
  split; [vm_compute; reflexivity|].
  intros H. specialize (H 1). vm_compute in H. discriminate H.
Qed.

(** The same failure at the level of the contract: a routine that meets
    everything [sort_values] relies on may list equal counts backwards. *)
Lemma contract_allows_reordering :
  argsort_spec reversing_argsort /\
  normalize floatify_int float_repr_integral x86_indefinite reversing_argsort
    (sheet [text "#a"; text "#b"] [OInt 1; OInt 1])
  = Ok [(0%nat, (py "#b", 1)); (1%nat, (py "#a", 1))].
Proof. split; [exact reversing_argsort_spec|vm_compute; reflexivity]. Qed.

(** ** Counts *)

(** C2, as amended: on a sheet whose count cells a double holds exactly,
    every row of the normalised table stems from one row of the sheet,
    and its count is an integer read off that row's count cell: 0 when the
    cell fails numeric parsing, the integer itself when the cell is an
    integer, the integer part of the parsed value when the cell is a text,
    and for any cell whose parsed value is finite with an integer part
    that fits in 64 bits, that value truncated toward zero.  Truncation
    makes the count non-negative when the parsed value is, 0 when the
    value lies between -1 and 1, and negative when the value is -1 or
    less.  Hence the counts are non-negative whenever every parsed source
    value is non-negative and fits. *)
Theorem counts_coerced
    (floatify : pystr -> option float64) (float_repr : Q -> pystr)
    (cast_overflow : Q -> Z)
    (argsort : list Z -> list nat) (df : DataFrame) (hs cs : list pyobj)
    (t : Frame) :
  select_columns df = Ok (hs, cs) ->
  Forall (fun o => exact_count floatify o = true) cs ->
  normalize floatify float_repr cast_overflow argsort df = Ok t ->
  (forall r, r ∈ rows t ->
     exists i h c,
       hs !! i = Some h /\ cs !! i = Some c /\
       r.1 = clean_label float_repr h /\
       (to_numeric floatify c = NaN -> r.2 = 0) /\
       (forall n, c = OInt n -> r.2 = n) /\
       (forall s q, c = OStr s -> floatify s = Some (Fin q) -> r.2 = trunc q) /\
       (forall q, to_numeric floatify c = Fin q -> in_int64 (trunc q) = true ->
          r.2 = trunc q /\
          (0 <= Qnum q -> 0 <= r.2) /\
          (Qlt (inject_Z (-1)) q -> Qlt q (inject_Z 1) -> r.2 = 0) /\
          (Qle q (inject_Z (-1)) -> r.2 < 0))) /\
  ((forall c q, c ∈ cs -> to_numeric floatify c = Fin q ->
                0 <= Qnum q /\ in_int64 (trunc q) = true) ->
   Forall (fun r => 0 <= row_count r) t).
Proof.
  intros Hsel Hex Hn.
  pose proof (normalize_row_source floatify float_repr cast_overflow argsort
                df hs cs t Hsel Hn) as Hrow.
  split.
  - intros r Hr. destruct (Hrow r Hr) as (i & h & c & Hh & Hc & Hlab & Hz).
    exists i, h, c. split; [done|]. split; [done|]. split; [done|].
    assert (exact_count floatify c = true) as Hc'.
    { rewrite Forall_forall in Hex. apply Hex, list_elem_of_lookup. by exists i. }
    destruct (coerce_count_exact floatify cast_overflow c r.2 Hc' Hz)
      as (Hnan & Hint & Htext & Hfin).
    split; [done|]. split; [done|]. split; [done|].
    intros q Hq Hfit. rewrite (Hfin q Hq Hfit).
    split; [done|]. split; [apply trunc_nonneg|].
    split; [apply trunc_fraction|apply trunc_negative].
  - intros Hpos. apply Forall_forall. intros [j r] Hr. unfold row_count. simpl.
    assert (r ∈ rows t) as Hr' by (by apply (list_elem_of_fmap_2 snd) in Hr).
    destruct (Hrow r Hr') as (i & h & c & _ & Hc & _ & Hz).
    apply coerce_count_Ok in Hz as [[_ ->]|(q & Hq & ->)]; [done|].
    destruct (Hpos c q) as [Hnum Hfit]; [apply list_elem_of_lookup; by exists i|done|].
    rewrite cast_int64_in_range by done. by apply trunc_nonneg.
Qed.

Lemma counts_coerced_witness :
  select_columns fraction_sheet
    = Ok ([text "#a"; text "#b "; text "#c"],
          [OFloat (Fin (-37 # 10)); text "N/A"; OFloat (Fin (-1 # 2))]) /\
  Forall (fun o => exact_count floatify_int o = true)
    [OFloat (Fin (-37 # 10)); text "N/A"; OFloat (Fin (-1 # 2))] /\
  normalize floatify_int float_repr_integral x86_indefinite stable_argsort
    fraction_sheet
    = Ok [(0%nat, (py "#b", 0)); (1%nat, (py "#c", 0)); (2%nat, (py "#a", -3))] /\
  (forall r,
     r ∈ rows [(0%nat, (py "#b", 0)); (1%nat, (py "#c", 0)); (2%nat, (py "#a", -3))] ->
     exists i h c,
       [text "#a"; text "#b "; text "#c"] !! i = Some h /\
       [OFloat (Fin (-37 # 10)); text "N/A"; OFloat (Fin (-1 # 2))] !! i = Some c /\
       r.1 = clean_label float_repr_integral h /\
       (to_numeric floatify_int c = NaN -> r.2 = 0) /\
       (forall n, c = OInt n -> r.2 = n) /\
       (forall s q, c = OStr s -> floatify_int s = Some (Fin q) -> r.2 = trunc q) /\
       (forall q, to_numeric floatify_int c = Fin q -> in_int64 (trunc q) = true ->
          r.2 = trunc q /\
          (0 <= Qnum q -> 0 <= r.2) /\
          (Qlt (inject_Z (-1)) q -> Qlt q (inject_Z 1) -> r.2 = 0) /\
          (Qle q (inject_Z (-1)) -> r.2 < 0))) /\
  ((forall c q,
      c ∈ [OFloat (Fin (-37 # 10)); text "N/A"; OFloat (Fin (-1 # 2))] ->
      to_numeric floatify_int c = Fin q ->
      0 <= Qnum q /\ in_int64 (trunc q) = true) ->
   Forall (fun r => 0 <= row_count r)
     [(0%nat, (py "#b", 0)); (1%nat, (py "#c", 0)); (2%nat, (py "#a", -3))]).
Proof.
  split; [vm_compute; reflexivity|].
  split; [repeat constructor|].
  split; [vm_compute; reflexivity|].
  apply (counts_coerced floatify_int float_repr_integral x86_indefinite
           stable_argsort fraction_sheet [text "#a"; text "#b "; text "#c"]
           [OFloat (Fin (-37 # 10)); text "N/A"; OFloat (Fin (-1 # 2))]).
  - vm_compute; reflexivity.
  - repeat constructor.
  - vm_compute; reflexivity.
Defined.

(** C2, as stated, fails: a negative count in the sheet stays negative. *)
Lemma negative_count_kept :
  normalize floatify_int float_repr_integral x86_indefinite Npy.aquicksort negative_sheet
    = Ok [(0%nat, (py "#ai", -5))] /\
  ~ Forall (fun r => 0 <= row_count r) [(0%nat, (py "#ai", -5))].
Proof.
  split; [vm_compute; reflexivity|].
  intros H. apply Forall_cons in H as [H _]. vm_compute in H. by apply H.
Qed.

(** C6, as amended: on a sheet whose two columns resolve and whose count
    cells a double holds exactly, when no count cell parses to an
    infinity the run succeeds, and every row whose cleaned label is not
    empty is kept with the count of its own cell: 0 if the cell fails
    numeric parsing, the integer itself if the cell is an integer, the
    integer part of the parsed value if the cell is a text, and the
    parsed value truncated toward zero for any cell whose value is finite
    with an integer part that fits in 64 bits.  A count cell that parses
    to an infinity aborts the run at the integer cast. *)
Theorem count_coercion
    (floatify : pystr -> option float64) (float_repr : Q -> pystr)
    (cast_overflow : Q -> Z)
    (argsort : list Z -> list nat) (df : DataFrame) (hs cs : list pyobj) :
  argsort_spec argsort ->
  select_columns df = Ok (hs, cs) ->
  Forall (fun o => exact_count floatify o = true) cs ->
  (Forall (fun o => forall b, to_numeric floatify o <> Inf b) cs ->
   exists t,
     normalize floatify float_repr cast_overflow argsort df = Ok t /\
     forall i h c,
       hs !! i = Some h -> cs !! i = Some c ->
       (0 < length (clean_label float_repr h))%nat ->
       (to_numeric floatify c = NaN -> (clean_label float_repr h, 0) ∈ rows t) /\
       (forall n, c = OInt n -> (clean_label float_repr h, n) ∈ rows t) /\
       (forall s q, c = OStr s -> floatify s = Some (Fin q) ->
                    (clean_label float_repr h, trunc q) ∈ rows t) /\
       (forall q, to_numeric floatify c = Fin q -> in_int64 (trunc q) = true ->
                  (clean_label float_repr h, trunc q) ∈ rows t)) /\
  (forall o b, o ∈ cs -> to_numeric floatify o = Inf b ->
     normalize floatify float_repr cast_overflow argsort df
     = Raise IntCastingNaNError).
Proof.
  intros Hspec Hsel Hex. split.
  - intros Hfin.
    destruct (normalize_keeps_rows floatify float_repr cast_overflow argsort
                Hspec df hs cs Hsel Hfin) as (t & Ht & Hrows).
    exists t. split; [done|]. intros i h c Hh Hc Hne.
    destruct (Hrows i h c Hh Hc Hne) as (z & Hz & Hin).
    assert (exact_count floatify c = true) as Hc'.
    { rewrite Forall_forall in Hex. apply Hex, list_elem_of_lookup. by exists i. }
    destruct (coerce_count_exact floatify cast_overflow c z Hc' Hz)
      as (Hnan & Hint & Htext & Hq).
    split; [|split; [|split]].
    + intros E. by rewrite <- (Hnan E).
    + intros n E. by rewrite <- (Hint n E).
    + intros s q E1 E2. by rewrite <- (Htext s q E1 E2).
    + intros q E Hr. by rewrite <- (Hq q E Hr).
  - intros o b Ho Hinf. by eapply normalize_inf_raises.
Qed.

Lemma count_coercion_witness :
  argsort_spec stable_argsort /\
  select_columns missing_sheet = Ok ([OFloat NaN; text "#ai"], [OInt 7; text "N/A"]) /\
  Forall (fun o => exact_count floatify_int o = true) [OInt 7; text "N/A"] /\
  (Forall (fun o => forall b, to_numeric floatify_int o <> Inf b) [OInt 7; text "N/A"] ->
   exists t,
     normalize floatify_int float_repr_integral x86_indefinite stable_argsort
       missing_sheet = Ok t /\
     forall i h c,
       [OFloat NaN; text "#ai"] !! i = Some h -> [OInt 7; text "N/A"] !! i = Some c ->
       (0 < length (clean_label float_repr_integral h))%nat ->
       (to_numeric floatify_int c = NaN ->
        (clean_label float_repr_integral h, 0) ∈ rows t) /\
       (forall n, c = OInt n -> (clean_label float_repr_integral h, n) ∈ rows t) /\
       (forall s q, c = OStr s -> floatify_int s = Some (Fin q) ->
                    (clean_label float_repr_integral h, trunc q) ∈ rows t) /\
       (forall q, to_numeric floatify_int c = Fin q -> in_int64 (trunc q) = true ->
                  (clean_label float_repr_integral h, trunc q) ∈ rows t)) /\
  (forall o b, o ∈ [OInt 7; text "N/A"] -> to_numeric floatify_int o = Inf b ->
     normalize floatify_int float_repr_integral x86_indefinite stable_argsort
       missing_sheet = Raise IntCastingNaNError).
Proof.
  split; [exact stable_argsort_spec|]. split; [vm_compute; reflexivity|].
  split; [repeat constructor|].
  apply (count_coercion floatify_int float_repr_integral x86_indefinite
           stable_argsort missing_sheet [OFloat NaN; text "#ai"]
           [OInt 7; text "N/A"]).
  - exact stable_argsort_spec.
  - vm_compute; reflexivity.
  - repeat constructor.
Defined.

(** C6, as stated, fails: the text [inf] parses as a number, yet it is not
    cast to an integer; the cast raises and the run stops. *)
Lemma infinite_count_aborts :
  floatify_int (py "inf") = Some (Inf false) /\
  normalize floatify_int float_repr_integral x86_indefinite Npy.aquicksort inf_sheet
    = Raise IntCastingNaNError.
Proof. split; vm_compute; reflexivity. Qed.

(** ** Labels *)

(** C7: no row of the normalised table has a label that is empty after
    trimming, and the table holds exactly the cleaned rows whose label is
    not empty: the others are dropped. *)
Theorem no_empty_label
    (floatify : pystr -> option float64) (float_repr : Q -> pystr)
    (cast_overflow : Q -> Z)
    (argsort : list Z -> list nat) (df : DataFrame) (hs cs : list pyobj)
    (t : Frame) :
  argsort_spec argsort ->
  select_columns df = Ok (hs, cs) ->
  normalize floatify float_repr cast_overflow argsort df = Ok t ->
  Forall (fun r => (0 < length (strip (row_hashtag r)))%nat) t /\
  exists zs,
    clean_count floatify cast_overflow cs = Ok zs /\
    rows t ≡ₚ filter (fun r : pystr * Z => (0 < length r.1)%nat)
                (zip (clean_hashtag float_repr hs) zs).
Proof.
  intros Hspec Hsel Hn.
  destruct (normalize_rows_perm floatify float_repr cast_overflow argsort Hspec df hs cs t
              Hsel Hn) as (zs & Hzs & Hp).
  split; [|by exists zs].
  apply Forall_forall. intros [i [h z]] Hr. unfold row_hashtag. simpl.
  assert ((h, z) ∈ rows t) as Hin by (by apply (list_elem_of_fmap_2 snd) in Hr).
  rewrite Hp in Hin. apply list_elem_of_filter in Hin as [Hne Hin]. simpl in Hne.
  apply list_elem_of_lookup in Hin as [j Hj].
  apply lookup_zip_with_Some in Hj as (h' & z' & [= <- <-] & Hh & _).
  unfold clean_hashtag in Hh. apply list_lookup_fmap_Some in Hh as (o & -> & _).
  unfold clean_label in *. by rewrite strip_idemp.
Qed.

Lemma no_empty_label_witness :
  argsort_spec stable_argsort /\
  select_columns scenario_sheet
    = Ok ([text "#ai"; text "#ai "; text " "; text "#ml"],
          [OInt 120; OInt 95; OInt 50; text "bad"]) /\
  normalize floatify_int float_repr_integral x86_indefinite stable_argsort scenario_sheet
    = Ok scenario_table /\
  Forall (fun r => (0 < length (strip (row_hashtag r)))%nat) scenario_table /\
  exists zs,
    clean_count floatify_int x86_indefinite [OInt 120; OInt 95; OInt 50; text "bad"] = Ok zs /\
    rows scenario_table
    ≡ₚ filter (fun r : pystr * Z => (0 < length r.1)%nat)
         (zip (clean_hashtag float_repr_integral
                 [text "#ai"; text "#ai "; text " "; text "#ml"]) zs).
Proof.
  split; [exact stable_argsort_spec|]. split; [vm_compute; reflexivity|].
  split; [vm_compute; reflexivity|].
  apply (no_empty_label floatify_int float_repr_integral x86_indefinite stable_argsort
           scenario_sheet).
  - exact stable_argsort_spec.
  - vm_compute; reflexivity.
  - vm_compute; reflexivity.
Defined.

(** C10: a row whose hashtag cell is missing is not dropped: the cell is
    converted to the text [nan], which passes the empty-label filter, and
    the row appears in the normalised table under that label. *)
Theorem missing_hashtag_is_nan
    (floatify : pystr -> option float64) (float_repr : Q -> pystr)
    (cast_overflow : Q -> Z)
    (argsort : list Z -> list nat) (df : DataFrame) (hs cs : list pyobj) :
  argsort_spec argsort ->
  select_columns df = Ok (hs, cs) ->
  Forall (fun o => forall b, to_numeric floatify o <> Inf b) cs ->
  astype_str float_repr (OFloat NaN) = py "nan" /\
  (0 < length (clean_label float_repr (OFloat NaN)))%nat /\
  exists t,
    normalize floatify float_repr cast_overflow argsort df = Ok t /\
    forall i c,
      hs !! i = Some (OFloat NaN) -> cs !! i = Some c ->
      exists z, coerce_count floatify cast_overflow c = Ok z /\ (py "nan", z) ∈ rows t.
Proof.
  intros Hspec Hsel Hfin.
  split; [done|]. split; [vm_compute; lia|].
  destruct (normalize_keeps_rows floatify float_repr cast_overflow argsort Hspec df hs cs
              Hsel Hfin) as (t & Ht & Hrows).
  exists t. split; [done|]. intros i c Hh Hc.
  destruct (Hrows i (OFloat NaN) c Hh Hc) as (z & Hz & Hin).
  { vm_compute. lia. }
  exists z. split; [done|]. exact Hin.
Qed.

Lemma missing_hashtag_is_nan_witness :
  argsort_spec stable_argsort /\
  select_columns missing_sheet = Ok ([OFloat NaN; text "#ai"], [OInt 7; text "N/A"]) /\
  Forall (fun o => forall b, to_numeric floatify_int o <> Inf b) [OInt 7; text "N/A"] /\
  astype_str float_repr_integral (OFloat NaN) = py "nan" /\
  (0 < length (clean_label float_repr_integral (OFloat NaN)))%nat /\
  exists t,
    normalize floatify_int float_repr_integral x86_indefinite stable_argsort missing_sheet = Ok t /\
    forall i c,
      [OFloat NaN; text "#ai"] !! i = Some (OFloat NaN) ->
      [OInt 7; text "N/A"] !! i = Some c ->
      exists z, coerce_count floatify_int x86_indefinite c = Ok z /\ (py "nan", z) ∈ rows t.
Proof.
  assert (Forall (fun o => forall b, to_numeric floatify_int o <> Inf b)
            [OInt 7; text "N/A"]) as Hfin.
  { repeat constructor; intros b; vm_compute; discriminate. }
  split; [exact stable_argsort_spec|]. split; [vm_compute; reflexivity|].
  split; [exact Hfin|].
  apply (missing_hashtag_is_nan floatify_int float_repr_integral x86_indefinite stable_argsort
           missing_sheet [OFloat NaN; text "#ai"] [OInt 7; text "N/A"]).
  - exact stable_argsort_spec.
  - vm_compute; reflexivity.
  - exact Hfin.
Defined.

(** ** The end-to-end scenario *)

Lemma fmap_lookup_total_inj (v : list Z) (a b : list nat) :
  NoDup v ->
  Forall (fun i => (i < length v)%nat) a ->
  Forall (fun i => (i < length v)%nat) b ->
  (fun i => v !!! i) <$> a = (fun i => v !!! i) <$> b -> a = b.
Proof.
  intros Hnd Ha. revert b.
  induction Ha as [|i a Hi _ IH]; intros b Hb E.
  - by destruct b.
  - destruct Hb as [|j b Hj Hb]; [done|]. simpl in E.
    injection E as Eij E. f_equal; [|by apply IH].
    eapply (NoDup_lookup v i j); [done| |].
    + by apply list_lookup_lookup_total_lt.
    + rewrite Eij. by apply list_lookup_lookup_total_lt.
Qed.

(** On values that are already ascending and pairwise distinct, every
    routine meeting the contract returns the positions in order. *)
Lemma argsort_of_ascending (argsort : list Z -> list nat) (v : list Z) :
  argsort_spec argsort -> NoDup v -> Sorted Z.le v ->
  argsort v = seq 0 (length v).
Proof.
  intros Hspec Hnd Hv. destruct (Hspec v) as [Hp Hs].
  apply (fmap_lookup_total_inj v); [done| | |].
  - by apply perm_seq_in_range.
  - by apply perm_seq_in_range.
  - apply (Sorted_unique Z.le); [done| |].
    + by rewrite fmap_lookup_total_seq.
    + by rewrite Hp.
Qed.

(** C3: the sheet with columns Hashtag, Count and rows
    ("#ai", 120), ("#ai ", 95), (" ", 50), ("#ml", "bad") normalises to
    ("#ai", 120), ("#ai", 95), ("#ml", 0), whatever sorting routine meets
    the contract and whatever parser rejects the text [bad]. *)
Theorem scenario_normalizes
    (floatify : pystr -> option float64) (float_repr : Q -> pystr)
    (cast_overflow : Q -> Z)
    (argsort : list Z -> list nat) :
  argsort_spec argsort ->
  floatify (py "bad") = None ->
  normalize floatify float_repr cast_overflow argsort scenario_sheet = Ok scenario_table.
Proof.
  intros Hspec Hbad.
  assert (filtered floatify float_repr cast_overflow scenario_sheet
          = Ok [(0%nat, (py "#ai", 120)); (1%nat, (py "#ai", 95));
                (3%nat, (py "#ml", 0))]) as Hf.
  { apply filtered_Ok.
    exists [text "#ai"; text "#ai "; text " "; text "#ml"],
           [OInt 120; OInt 95; OInt 50; text "bad"], [120; 95; 50; 0].
    split; [vm_compute; reflexivity|]. split; [|vm_compute; reflexivity].
    apply clean_count_Ok.
    repeat constructor; unfold coerce_count; simpl;
      rewrite ?Hbad, ?trunc_inject_Z; reflexivity. }
  unfold normalize. rewrite Hf. simpl.
  unfold sort_values_desc, nargsort_desc.
  change (reverse (row_count <$> _)) with [0; 95; 120].
  rewrite (argsort_of_ascending argsort [0; 95; 120] Hspec).
  - vm_compute; reflexivity.
  - by apply (bool_decide_unpack _).
  - by apply (bool_decide_unpack _).
Qed.

Lemma scenario_normalizes_witness :
  argsort_spec stable_argsort /\
  floatify_int (py "bad") = None /\
  normalize floatify_int float_repr_integral x86_indefinite stable_argsort scenario_sheet
    = Ok scenario_table.
Proof.
  split; [exact stable_argsort_spec|]. split; [vm_compute; reflexivity|].
  apply (scenario_normalizes floatify_int float_repr_integral x86_indefinite stable_argsort).
  - exact stable_argsort_spec.
  - vm_compute; reflexivity.
Defined.

(** The scenario under numpy's quicksort. *)
Example scenario_quicksort :
  normalize floatify_int float_repr_integral x86_indefinite Npy.aquicksort scenario_sheet
  = Ok scenario_table.
Proof. vm_compute; reflexivity. Qed.

(** ** Column resolution *)

Lemma label_is_true (k : pystr) (c : pyobj) : label_is k c <-> c = OStr k.
Proof.
  destruct c as [s| | |]; simpl; try (split; [done|discriminate]).
  rewrite bool_decide_spec. split; [by intros ->|by intros [= ->]].
Qed.



Lemma lower_nil_iff (s s' : pystr) : lower s = lower s' -> s = [] <-> s' = [].
Proof. by destruct s, s'. Qed.





Lemma find_columns_missing (df : DataFrame) (cl : gmap pystr pystr) :
  cols_lower (columns df) = Ok cl ->
  cl !! py "hashtag" = None \/ cl !! py "count" = None ->
  find_columns df = Raise (ValueError schema_message (columns df)).
Proof.
  intros Hcl Hmiss. unfold find_columns. rewrite Hcl. simpl.
  destruct Hmiss as [-> | ->]; [done|].
  by destruct (cl !! py "hashtag") as [[|??]|].
Qed.

Lemma normalize_select_ext
    (floatify : pystr -> option float64) (float_repr : Q -> pystr)
    (cast_overflow : Q -> Z)
    (argsort : list Z -> list nat) (df1 df2 : DataFrame) :
  table_of (select_columns df1) = table_of (select_columns df2) ->
  table_of (normalize floatify float_repr cast_overflow argsort df1)
  = table_of (normalize floatify float_repr cast_overflow argsort df2).
Proof.
  intros H. unfold normalize, filtered.
  destruct (select_columns df1) as [[hs1 cs1]|e1],
           (select_columns df2) as [[hs2 cs2]|e2]; simpl in *; try done.
  by injection H as -> ->.
Qed.

(** ** Writes to the file system *)

Lemma apply_writes_lookup_other (ws : list (pystr * content)) (fs : FS) (k : pystr) :
  Forall (fun w => w.1 <> k) ws -> apply_writes fs ws !! k = fs !! k.
Proof.
  intros H. revert fs. induction H as [|w ws Hw _ IH]; intros fs; [done|].
  unfold apply_writes in *. simpl. rewrite IH. by apply lookup_insert_ne.
Qed.

(** The outcome of a sequence of writes depends on the initial files only
    at the paths it does not write. *)
Lemma apply_writes_ext (ws : list (pystr * content)) (m1 m2 : FS) :
  (forall k, m1 !! k = m2 !! k \/ k ∈ fst <$> ws) ->
  apply_writes m1 ws = apply_writes m2 ws.
Proof.
  revert m1 m2. induction ws as [|w ws IH]; intros m1 m2 H.
  - apply map_eq. intros k. destruct (H k) as [E|E]; [done|].
    by apply elem_of_nil in E.
  - unfold apply_writes in *. simpl. apply IH. intros k.
    destruct (decide (w.1 = k)) as [<-|Hk].
    + left. by rewrite !lookup_insert_eq.
    + rewrite !lookup_insert_ne by done.
      destruct (H k) as [E|E]; [by left|right].
      rewrite fmap_cons in E. apply elem_of_cons in E as [E|E]; [congruence|done].
Qed.

Lemma apply_writes_idemp (ws : list (pystr * content)) (fs : FS) :
  apply_writes (apply_writes fs ws) ws = apply_writes fs ws.
Proof.
  apply apply_writes_ext. intros k.
  destruct (decide (k ∈ fst <$> ws)) as [Hin|Hout]; [by right|left].
  apply apply_writes_lookup_other. apply Forall_forall. intros w Hw E.
  apply Hout. apply list_elem_of_fmap. by exists w.
Qed.

Lemma path_join_ne (outdir name : pystr) :
  name <> [] -> startswith_sep name = false -> path_join outdir name <> outdir.
Proof.
  intros Hne Hs E. unfold path_join in E. rewrite Hs in E.
  apply (f_equal length) in E.
  destruct (_ || _); rewrite length_app in E; simpl in E;
    destruct name; simpl in *; try done; lia.
Qed.

Lemma path_join_inj (outdir a b : pystr) :
  startswith_sep a = false -> startswith_sep b = false ->
  path_join outdir a = path_join outdir b -> a = b.
Proof.
  intros Ha Hb. unfold path_join. rewrite Ha, Hb.
  destruct (_ || _); intros E; apply app_inv_head in E; congruence.
Qed.

(** ** The run as a whole *)

Ltac io_unfold :=
  unfold main, read_excel, write_report, makedirs, read_file, write_file,
    append_text, lift, mbind, io_bind, mret, io_ret.

Section Run.

Variable floatify : pystr -> option float64.
Variable float_repr : Q -> pystr.
Variable cast_overflow : Q -> Z.
Variable argsort : list Z -> list nat.
Variable read_workbook : content -> sheet_ref -> result DataFrame.
Variable csv_field : pystr -> pystr.
Variable render_bar : Frame -> result (list N).
Variable render_pie : Frame -> result (list N).
Variable to_markdown : Frame -> result pystr.

Local Abbreviation run :=
  (main floatify float_repr cast_overflow argsort read_workbook csv_field
     render_bar render_pie to_markdown).

Lemma write_report_Ok (md_path : pystr) (df : Frame) (table : pystr) (fs : FS) :
  to_markdown (head 10 df) = Ok table ->
  write_report to_markdown md_path df fs
  = (Ok (), <[md_path := Text (report_title ++ report_preview_heading ++ table
               ++ report_charts_heading ++ report_bar_image ++ report_pie_image)]> fs).
Proof.
  intros Ht. io_unfold. rewrite Ht.
  repeat (rewrite lookup_insert_eq; rewrite insert_insert_eq).
  by rewrite <- !app_assoc.
Qed.

Lemma write_report_Raise (md_path : pystr) (df : Frame) (e : exn) (fs : FS) :
  to_markdown (head 10 df) = Raise e ->
  write_report to_markdown md_path df fs
  = (Raise e, <[md_path := Text (report_title ++ report_preview_heading)]> fs).
Proof.
  intros Ht. io_unfold. rewrite Ht.
  repeat (rewrite lookup_insert_eq; rewrite insert_insert_eq).
  done.
Qed.

(** Once the output directory and the input file are in place, a run is
    an outcome and a sequence of writes into the output directory, both
    determined by the content of the input file. *)
Lemma main_writes (input_path : pystr) (sheet_name : option pystr)
    (outdir : pystr) (c : content) :
  exists r ws,
    Forall (fun w => w.1 <> outdir) ws /\
    forall fs : FS,
      fs !! outdir = None -> fs !! input_path = Some c ->
      run input_path sheet_name outdir fs = (r, apply_writes fs ws).
Proof.
  assert (forall name, name <> [] -> startswith_sep name = false ->
            path_join outdir name <> outdir) as Hne by apply path_join_ne.
  destruct (read_workbook c (sheet_of sheet_name)) as [raw|e] eqn:Hraw.
  2:{ exists (Raise e), []. split; [constructor|]. intros fs Ho Hi.
      io_unfold. by rewrite Ho, Hi; simpl; rewrite Hraw. }
  destruct (normalize floatify float_repr cast_overflow argsort raw) as [t|e] eqn:Hn.
  2:{ exists (Raise e), []. split; [constructor|]. intros fs Ho Hi.
      io_unfold. by rewrite Ho, Hi; simpl; rewrite Hraw, Hn. }
  set (w1 := (path_join outdir cleaned_csv_name, Text (to_csv csv_field t))).
  destruct (render_bar t) as [bar|e] eqn:Hbar.
  2:{ exists (Raise e), [w1]. split; [repeat constructor; by apply Hne|].
      intros fs Ho Hi. io_unfold.
      by rewrite Ho, Hi; simpl; rewrite Hraw, Hn, Hbar. }
  set (w2 := (path_join outdir bar_png_name, Binary bar)).
  destruct (render_pie t) as [pie|e] eqn:Hpie.
  2:{ exists (Raise e), [w1; w2]. split; [repeat constructor; by apply Hne|].
      intros fs Ho Hi. io_unfold.
      by rewrite Ho, Hi; simpl; rewrite Hraw, Hn, Hbar, Hpie. }
  set (w3 := (path_join outdir pie_png_name, Binary pie)).
  destruct (to_markdown (head 10 t)) as [table|e] eqn:Hmd.
  - exists (Ok [path_join outdir cleaned_csv_name; path_join outdir bar_png_name;
                path_join outdir pie_png_name; path_join outdir report_name]),
      [w1; w2; w3;
       (path_join outdir report_name,
        Text (report_title ++ report_preview_heading ++ table
              ++ report_charts_heading ++ report_bar_image ++ report_pie_image))].
    split; [repeat constructor; by apply Hne|].
    intros fs Ho Hi. unfold main, read_excel, makedirs, read_file, write_file,
      lift, mbind, io_bind, mret, io_ret.
    rewrite Ho, Hi; simpl; rewrite Hraw, Hn, Hbar, Hpie.
    by rewrite (write_report_Ok _ _ table).
  - exists (Raise e),
      [w1; w2; w3;
       (path_join outdir report_name,
        Text (report_title ++ report_preview_heading))].
    split; [repeat constructor; by apply Hne|].
    intros fs Ho Hi. unfold main, read_excel, makedirs, read_file, write_file,
      lift, mbind, io_bind, mret, io_ret.
    rewrite Ho, Hi; simpl; rewrite Hraw, Hn, Hbar, Hpie.
    by rewrite (write_report_Raise _ _ e).
Qed.

(** A run in which every stage succeeds. *)
Lemma main_success (input_path : pystr) (sheet_name : option pystr)
    (outdir : pystr) (fs : FS) (c : content) (raw : DataFrame) (t : Frame)
    (bar pie : list N) (table : pystr) :
  fs !! outdir = None -> fs !! input_path = Some c ->
  read_workbook c (sheet_of sheet_name) = Ok raw ->
  normalize floatify float_repr cast_overflow argsort raw = Ok t ->
  render_bar t = Ok bar -> render_pie t = Ok pie ->
  to_markdown (head 10 t) = Ok table ->
  run input_path sheet_name outdir fs
  = (Ok [path_join outdir cleaned_csv_name; path_join outdir bar_png_name;
         path_join outdir pie_png_name; path_join outdir report_name],
     <[path_join outdir report_name :=
         Text (report_title ++ report_preview_heading ++ table
               ++ report_charts_heading ++ report_bar_image ++ report_pie_image)]>
       (<[path_join outdir pie_png_name := Binary pie]>
          (<[path_join outdir bar_png_name := Binary bar]>
             (<[path_join outdir cleaned_csv_name := Text (to_csv csv_field t)]> fs)))).
Proof.
  intros Ho Hi Hraw Hn Hbar Hpie Hmd.
  unfold main, read_excel, makedirs, read_file, write_file,
    lift, mbind, io_bind, mret, io_ret.
  rewrite Ho, Hi; simpl; rewrite Hraw, Hn, Hbar, Hpie.
  by rewrite (write_report_Ok _ _ table).
Qed.

(** A second run on the files left by the first, the input file being
    the same, has the same outcome and leaves every file as it is. *)
Lemma main_rerun (input_path : pystr) (sheet_name : option pystr)
    (outdir : pystr) (fs fs1 : FS) (r : result (list pystr)) :
  run input_path sheet_name outdir fs = (r, fs1) ->
  fs1 !! input_path = fs !! input_path ->
  run input_path sheet_name outdir fs1 = (r, fs1).
Proof.
  intros Hrun Hsame.
  destruct (fs !! outdir) as [d|] eqn:Ho.
  { revert Hrun. io_unfold. rewrite Ho. intros [= <- <-]. by rewrite Ho. }
  destruct (fs !! input_path) as [c|] eqn:Hi.
  2:{ revert Hrun. io_unfold. rewrite Ho, Hi. simpl. intros [= <- <-].
      by rewrite Ho, Hi. }
  destruct (main_writes input_path sheet_name outdir c) as (r' & ws & Hws & Hm).
  rewrite (Hm fs Ho Hi) in Hrun. injection Hrun as <- <-.
  rewrite Hm.
  - by rewrite apply_writes_idemp.
  - rewrite apply_writes_lookup_other; [done|]. exact Hws.
  - done.
Qed.

End Run.

(** ** Schema errors *)

(** C4: when the lowered column names lack ["hashtag"] or ["count"], the
    run fails with the error of [find_columns], which carries the list of
    all columns of the sheet, and the files are those found at the start:
    nothing has been written. *)
Theorem missing_column_fails
    (floatify : pystr -> option float64) (float_repr : Q -> pystr)
    (cast_overflow : Q -> Z)
    (argsort : list Z -> list nat)
    (read_workbook : content -> sheet_ref -> result DataFrame)
    (csv_field : pystr -> pystr)
    (render_bar render_pie : Frame -> result (list N))
    (to_markdown : Frame -> result pystr)
    (input_path : pystr) (sheet_name : option pystr) (outdir : pystr)
    (fs : FS) (c : content) (df : DataFrame) (cl : gmap pystr pystr) :
  fs !! outdir = None ->
  fs !! input_path = Some c ->
  read_workbook c (sheet_of sheet_name) = Ok df ->
  cols_lower (columns df) = Ok cl ->
  cl !! py "hashtag" = None \/ cl !! py "count" = None ->
  normalize floatify float_repr cast_overflow argsort df
    = Raise (ValueError schema_message (columns df)) /\
  main floatify float_repr cast_overflow argsort read_workbook csv_field render_bar render_pie
    to_markdown input_path sheet_name outdir fs
    = (Raise (ValueError schema_message (columns df)), fs).
Proof.
  intros Ho Hi Hraw Hcl Hmiss.
  assert (normalize floatify float_repr cast_overflow argsort df
          = Raise (ValueError schema_message (columns df))) as Hn.
  { apply normalize_Raise. unfold filtered, select_columns.
    by rewrite (find_columns_missing df cl Hcl Hmiss). }
  split; [done|]. io_unfold. by rewrite Ho, Hi; simpl; rewrite Hraw, Hn.
Qed.

Lemma missing_column_fails_witness :
  sample_fs !! py "outputs" = None /\
  sample_fs !! py "data/top_hashtags.xlsx" = Some (Binary [80; 75; 3; 4]%N) /\
  cols_lower (columns no_count_sheet)
    = Ok {[ py "tag" := py "Tag"; py "hashtag" := py "Hashtag" ]} /\
  normalize floatify_int float_repr_integral x86_indefinite stable_argsort no_count_sheet
    = Raise (ValueError schema_message [text "Tag"; text "Hashtag"]) /\
  main floatify_int float_repr_integral x86_indefinite stable_argsort (decode_as no_count_sheet)
    csv_quote_minimal blank_png blank_png plain_markdown
    (py "data/top_hashtags.xlsx") None (py "outputs") sample_fs
    = (Raise (ValueError schema_message [text "Tag"; text "Hashtag"]), sample_fs).
Proof.
  split; [vm_compute; reflexivity|]. split; [vm_compute; reflexivity|].
  split; [vm_compute; reflexivity|].
  apply (missing_column_fails floatify_int float_repr_integral x86_indefinite stable_argsort
           (decode_as no_count_sheet) csv_quote_minimal blank_png blank_png
           plain_markdown (py "data/top_hashtags.xlsx") None (py "outputs")
           sample_fs (Binary [80; 75; 3; 4]%N) no_count_sheet
           {[ py "tag" := py "Tag"; py "hashtag" := py "Hashtag" ]}).
  - vm_compute; reflexivity.
  - vm_compute; reflexivity.
  - reflexivity.
  - vm_compute; reflexivity.
  - right. vm_compute; reflexivity.
Defined.

(** ** Case of the column names *)



(** ** Running twice *)

(** C8: when the pipeline is run again with the same input file, sheet
    name and output directory, the input file holding what it held for the
    first run, the second run ends as the first did and
    [top_hashtags_cleaned.csv] holds the same content after both runs. *)
Theorem rerun_same_csv
    (floatify : pystr -> option float64) (float_repr : Q -> pystr)
    (cast_overflow : Q -> Z)
    (argsort : list Z -> list nat)
    (read_workbook : content -> sheet_ref -> result DataFrame)
    (csv_field : pystr -> pystr)
    (render_bar render_pie : Frame -> result (list N))
    (to_markdown : Frame -> result pystr)
    (input_path : pystr) (sheet_name : option pystr) (outdir : pystr)
    (fs fs1 : FS) (r : result (list pystr)) :
  main floatify float_repr cast_overflow argsort read_workbook csv_field render_bar render_pie
    to_markdown input_path sheet_name outdir fs = (r, fs1) ->
  fs1 !! input_path = fs !! input_path ->
  exists fs2,
    main floatify float_repr cast_overflow argsort read_workbook csv_field render_bar render_pie
      to_markdown input_path sheet_name outdir fs1 = (r, fs2) /\
    fs2 !! path_join outdir cleaned_csv_name
    = fs1 !! path_join outdir cleaned_csv_name.
Proof.
  intros Hrun Hsame. exists fs1. split; [|done].
  by eapply main_rerun.
Qed.

Lemma rerun_same_csv_witness :
  let run := main floatify_int float_repr_integral x86_indefinite Npy.aquicksort
               (decode_as scenario_sheet) csv_quote_minimal blank_png blank_png
               plain_markdown (py "data/top_hashtags.xlsx") None (py "outputs") in
  let first := run sample_fs in
  first.1 = Ok [py "outputs/top_hashtags_cleaned.csv"; py "outputs/top_hashtags_bar.png";
                py "outputs/top_hashtags_pie.png"; py "outputs/REPORT.md"] /\
  first.2 !! py "outputs/top_hashtags_cleaned.csv"
    = Some (Text (py "Hashtag,Count" ++ nl ++ py "#ai,120" ++ nl
                  ++ py "#ai,95" ++ nl ++ py "#ml,0" ++ nl)) /\
  first.2 !! py "data/top_hashtags.xlsx" = sample_fs !! py "data/top_hashtags.xlsx" /\
  exists fs2,
    run first.2 = (first.1, fs2) /\
    fs2 !! path_join (py "outputs") cleaned_csv_name
    = first.2 !! path_join (py "outputs") cleaned_csv_name.
Proof.
  intros run first.
  split; [vm_compute; reflexivity|]. split; [vm_compute; reflexivity|].
  split; [vm_compute; reflexivity|].
  apply (rerun_same_csv floatify_int float_repr_integral x86_indefinite Npy.aquicksort
           (decode_as scenario_sheet) csv_quote_minimal blank_png blank_png
           plain_markdown (py "data/top_hashtags.xlsx") None (py "outputs")
           sample_fs first.2 first.1).
  - apply surjective_pairing.
  - vm_compute; reflexivity.
Defined.

(** ** The report *)

(** C9: in a run where every stage succeeds, [REPORT.md] holds, in order:
    a top-level heading; the second-level heading of the preview; the
    Markdown table of the first [min 10 n] rows of the normalised table,
    in table order; the heading of the charts section and the two images,
    referred to as [./] followed by the file names the charts are saved
    under.  A table of 12 rows is previewed by its first 10 rows. *)
Theorem report_contents
    (floatify : pystr -> option float64) (float_repr : Q -> pystr)
    (cast_overflow : Q -> Z)
    (argsort : list Z -> list nat)
    (read_workbook : content -> sheet_ref -> result DataFrame)
    (csv_field : pystr -> pystr)
    (render_bar render_pie : Frame -> result (list N))
    (to_markdown : Frame -> result pystr)
    (input_path : pystr) (sheet_name : option pystr) (outdir : pystr)
    (fs : FS) (c : content) (raw : DataFrame) (t : Frame)
    (bar pie : list N) (table : pystr) :
  fs !! outdir = None -> fs !! input_path = Some c ->
  read_workbook c (sheet_of sheet_name) = Ok raw ->
  normalize floatify float_repr cast_overflow argsort raw = Ok t ->
  render_bar t = Ok bar -> render_pie t = Ok pie ->
  to_markdown (head 10 t) = Ok table ->
  (exists paths fs',
     main floatify float_repr cast_overflow argsort read_workbook csv_field render_bar
       render_pie to_markdown input_path sheet_name outdir fs = (Ok paths, fs') /\
     fs' !! path_join outdir report_name
     = Some (Text (py "# Trending Hashtags " ++ [8211%N] ++ py " Auto Report" ++ nl ++ nl
                   ++ py "## Top 10 (preview)" ++ nl ++ nl
                   ++ table
                   ++ nl ++ nl ++ py "## Charts" ++ nl ++ nl
                   ++ py "![Bar Chart](./" ++ bar_png_name ++ py ")" ++ nl ++ nl
                   ++ py "![Pie Chart](./" ++ pie_png_name ++ py ")" ++ nl)) /\
     fs' !! path_join outdir bar_png_name = Some (Binary bar) /\
     fs' !! path_join outdir pie_png_name = Some (Binary pie)) /\
  length (head 10 t) = Nat.min 10 (length t) /\
  (forall i, (i < Nat.min 10 (length t))%nat -> head 10 t !! i = t !! i) /\
  (length t = 12%nat -> head 10 t ++ drop 10 t = t /\ length (head 10 t) = 10%nat).
Proof.
  intros Ho Hi Hraw Hn Hbar Hpie Hmd. split; [|split; [|split]].
  - eexists _, _. split.
    + by apply (main_success floatify float_repr cast_overflow argsort read_workbook csv_field
                  render_bar render_pie to_markdown input_path sheet_name outdir
                  fs c raw t bar pie table).
    + split; [|split].
      * rewrite lookup_insert_eq.
        unfold report_title, report_preview_heading, report_charts_heading,
          report_bar_image, report_pie_image.
        by rewrite <- !app_assoc.
      * do 2 (rewrite lookup_insert_ne
                by (intros E; by apply path_join_inj in E)).
        by rewrite lookup_insert_eq.
      * rewrite lookup_insert_ne by (intros E; by apply path_join_inj in E).
        by rewrite lookup_insert_eq.
  - unfold head. rewrite length_take. lia.
  - intros i Hlt. unfold head. apply lookup_take_lt. lia.
  - intros H12. unfold head. split; [apply take_drop|].
    rewrite length_take. lia.
Qed.

Lemma report_contents_witness :
  sample_fs !! py "outputs" = None /\
  sample_fs !! py "data/top_hashtags.xlsx" = Some (Binary [80; 75; 3; 4]%N) /\
  normalize floatify_int float_repr_integral x86_indefinite Npy.aquicksort twelve_sheet
    = Ok twelve_table /\
  plain_markdown (head 10 twelve_table) = Ok twelve_preview /\
  (exists paths fs',
     main floatify_int float_repr_integral x86_indefinite Npy.aquicksort (decode_as twelve_sheet)
       csv_quote_minimal blank_png blank_png plain_markdown
       (py "data/top_hashtags.xlsx") None (py "outputs") sample_fs = (Ok paths, fs') /\
     fs' !! path_join (py "outputs") report_name
     = Some (Text (py "# Trending Hashtags " ++ [8211%N] ++ py " Auto Report" ++ nl ++ nl
                   ++ py "## Top 10 (preview)" ++ nl ++ nl
                   ++ twelve_preview
                   ++ nl ++ nl ++ py "## Charts" ++ nl ++ nl
                   ++ py "![Bar Chart](./" ++ bar_png_name ++ py ")" ++ nl ++ nl
                   ++ py "![Pie Chart](./" ++ pie_png_name ++ py ")" ++ nl)) /\
     fs' !! path_join (py "outputs") bar_png_name
     = Some (Binary [137; 80; 78; 71; 13; 10; 26; 10]%N) /\
     fs' !! path_join (py "outputs") pie_png_name
     = Some (Binary [137; 80; 78; 71; 13; 10; 26; 10]%N)) /\
  length (head 10 twelve_table) = Nat.min 10 (length twelve_table) /\
  (forall i, (i < Nat.min 10 (length twelve_table))%nat ->
             head 10 twelve_table !! i = twelve_table !! i) /\
  (length twelve_table = 12%nat ->
   head 10 twelve_table ++ drop 10 twelve_table = twelve_table /\
   length (head 10 twelve_table) = 10%nat).
Proof.
  split; [vm_compute; reflexivity|]. split; [vm_compute; reflexivity|].
  split; [vm_compute; reflexivity|]. split; [vm_compute; reflexivity|].
  apply (report_contents floatify_int float_repr_integral x86_indefinite Npy.aquicksort
           (decode_as twelve_sheet) csv_quote_minimal blank_png blank_png
           plain_markdown (py "data/top_hashtags.xlsx") None (py "outputs")
           sample_fs (Binary [80; 75; 3; 4]%N) twelve_sheet twelve_table).
  - vm_compute; reflexivity.
  - vm_compute; reflexivity.
  - reflexivity.
  - vm_compute; reflexivity.
  - reflexivity.
  - reflexivity.
  - vm_compute; reflexivity.
Defined.

(** * Further properties of the script *)

(** ** [find_columns] as a search for the last matching label *)

Lemma resolve_cons (k : pystr) (o : pyobj) (cols : list pyobj) :
  resolve k (o :: cols)
  = match resolve k cols with
    | Some s => Some s
    | None => matches k o
    end.
Proof.
  unfold resolve. simpl. destruct (matches k o) as [s|]; [|by destruct (last _)].
  by rewrite last_cons.
Qed.

Lemma resolve_Some (k s : pystr) (cols : list pyobj) :
  resolve k cols = Some s -> lower s = k /\ OStr s ∈ cols.
Proof.
  unfold resolve. intros H. apply last_Some_elem_of in H.
  apply list_elem_of_omap in H as (o & Ho & Hm).
  destruct o as [s'| | |]; simpl in Hm; try done.
  case_bool_decide; [|done]. by injection Hm as ->.
Qed.

(** After the last column labelled [s] nothing lowers to [k]. *)
Lemma resolve_last (k s : pystr) (cols : list pyobj) :
  resolve k cols = Some s ->
  exists before after,
    cols = before ++ OStr s :: after /\
    forall s', OStr s' ∈ after -> lower s' <> k.
Proof.
  induction cols as [|o cols IH]; [done|].
  rewrite resolve_cons. destruct (resolve k cols) as [s0|] eqn:E.
  - intros [= ->]. destruct (IH eq_refl) as (before & after & -> & Hafter).
    by exists (o :: before), after.
  - intros Hm. destruct o as [s'| | |]; simpl in Hm; try done.
    case_bool_decide; [|done]. injection Hm as ->.
    exists [], cols. split; [done|]. intros s' Hin Hlow.
    unfold resolve in E. apply last_None in E.
    assert (s' ∈ omap (matches k) cols) as Hs'.
    { apply list_elem_of_omap. exists (OStr s'). split; [done|]. simpl.
      by rewrite bool_decide_true. }
    rewrite E in Hs'. by apply elem_of_nil in Hs'.
Qed.

Lemma cols_lower_from_text (cols : list pyobj) (m : gmap pystr pystr) :
  Forall (fun o => is_text o = true) cols ->
  exists m',
    cols_lower_from m cols = Ok m' /\
    forall k, m' !! k = match resolve k cols with
                        | Some s => Some s
                        | None => m !! k
                        end.
Proof.
  intros H. revert m. induction H as [|o cols Ho _ IH]; intros m.
  - by exists m.
  - destruct o as [c| | |]; try done. simpl.
    destruct (IH (<[lower c := c]> m)) as (m' & -> & Hm').
    exists m'. split; [done|]. intros k. rewrite Hm', resolve_cons.
    destruct (resolve k cols) as [s|]; [done|]. simpl.
    case_bool_decide as Hk.
    + subst k. by rewrite lookup_insert_eq.
    + by rewrite lookup_insert_ne.
Qed.

Lemma cols_lower_from_non_text (cols : list pyobj) (m : gmap pystr pystr) :
  Exists (fun o => is_text o = false) cols ->
  cols_lower_from m cols = Raise AttributeError.
Proof.
  intros H. revert m. induction cols as [|o cols IH]; intros m.
  - by apply Exists_nil in H.
  - destruct o as [c| | |]; try done. simpl. apply IH.
    apply Exists_cons in H as [H|H]; [done|exact H].
Qed.

Lemma lower_nonempty (s k : pystr) : lower s = k -> k <> [] -> s <> [].
Proof. intros <- Hk ->. by apply Hk. Qed.

(** X1: when every column label is text, [find_columns] returns, for each
    of the two names, the label of the last column whose lowered label is
    that name, and raises its [ValueError] when one of the two has no such
    column. *)
Theorem find_columns_resolves (df : DataFrame) :
  Forall (fun o => is_text o = true) (columns df) ->
  find_columns df
  = match resolve (py "hashtag") (columns df), resolve (py "count") (columns df) with
    | Some h, Some c => Ok (h, c)
    | _, _ => Raise (ValueError schema_message (columns df))
    end.
Proof.
  intros Htext. unfold find_columns, cols_lower.
  destruct (cols_lower_from_text (columns df) ∅ Htext) as (m & -> & Hm).
  simpl. rewrite !Hm, !lookup_empty.
  destruct (resolve (py "hashtag") (columns df)) as [h|] eqn:Eh; [|done].
  destruct (resolve (py "count") (columns df)) as [c|] eqn:Ec.
  - apply resolve_Some in Eh as [Eh _]. apply resolve_Some in Ec as [Ec _].
    destruct h as [|h0 h]; [by vm_compute in Eh|].
    destruct c as [|c0 c]; [by vm_compute in Ec|]. done.
  - by destruct h.
Qed.

Lemma find_columns_resolves_witness :
  Forall (fun o => is_text o = true) (columns wide_sheet) /\
  resolve (py "hashtag") (columns wide_sheet) = Some (py "HASHTAG") /\
  find_columns wide_sheet
  = match resolve (py "hashtag") (columns wide_sheet),
          resolve (py "count") (columns wide_sheet) with
    | Some h, Some c => Ok (h, c)
    | _, _ => Raise (ValueError schema_message (columns wide_sheet))
    end.
Proof.
  assert (Forall (fun o => is_text o = true) (columns wide_sheet)) as H.
  { repeat constructor. }
  split; [exact H|]. split; [vm_compute; reflexivity|].
  exact (find_columns_resolves wide_sheet H).
Defined.

Lemma text_or_not (cols : list pyobj) :
  Forall (fun o => is_text o = true) cols \/ Exists (fun o => is_text o = false) cols.
Proof.
  induction cols as [|o cols [IH|IH]].
  - left. constructor.
  - destruct (is_text o) eqn:E.
    + left. by constructor.
    + right. by apply Exists_cons_hd.
  - right. by apply Exists_cons_tl.
Qed.

Lemma find_columns_non_text (df : DataFrame) :
  Exists (fun o => is_text o = false) (columns df) ->
  find_columns df = Raise AttributeError.
Proof.
  intros H. unfold find_columns, cols_lower.
  by rewrite (cols_lower_from_non_text _ _ H).
Qed.

(** X2: the two names [find_columns] returns are labels of the sheet that
    lower to ["hashtag"] and ["count"], and no later column lowers to the
    same name: of several spellings of one name, the last column wins. *)
Theorem find_columns_sound (df : DataFrame) (h c : pystr) :
  find_columns df = Ok (h, c) ->
  lower h = py "hashtag" /\ lower c = py "count" /\
  (exists before after,
     columns df = before ++ OStr h :: after /\
     forall s, OStr s ∈ after -> lower s <> py "hashtag") /\
  (exists before after,
     columns df = before ++ OStr c :: after /\
     forall s, OStr s ∈ after -> lower s <> py "count").
Proof.
  intros Hf. destruct (text_or_not (columns df)) as [Ht|Hn].
  - rewrite (find_columns_resolves df Ht) in Hf.
    destruct (resolve (py "hashtag") (columns df)) as [h'|] eqn:Eh; [|done].
    destruct (resolve (py "count") (columns df)) as [c'|] eqn:Ec; [|done].
    injection Hf as -> ->.
    split; [by apply resolve_Some in Eh as [? _]|].
    split; [by apply resolve_Some in Ec as [? _]|].
    split; by apply resolve_last.
  - by rewrite (find_columns_non_text df Hn) in Hf.
Qed.

Lemma find_columns_sound_witness :
  find_columns wide_sheet = Ok (py "HASHTAG", py "Count") /\
  lower (py "HASHTAG") = py "hashtag" /\ lower (py "Count") = py "count" /\
  (exists before after,
     columns wide_sheet = before ++ OStr (py "HASHTAG") :: after /\
     forall s, OStr s ∈ after -> lower s <> py "hashtag") /\
  (exists before after,
     columns wide_sheet = before ++ OStr (py "Count") :: after /\
     forall s, OStr s ∈ after -> lower s <> py "count").
Proof.
  split; [vm_compute; reflexivity|].
  apply (find_columns_sound wide_sheet). vm_compute; reflexivity.
Defined.

(** X3: a single column label that is not text (a numeric header cell)
    makes the run fail with [AttributeError], also when the Hashtag and
    Count columns are both there. *)
Theorem non_text_label_aborts
    (floatify : pystr -> option float64) (float_repr : Q -> pystr)
    (cast_overflow : Q -> Z) (argsort : list Z -> list nat) (df : DataFrame) :
  Exists (fun o => is_text o = false) (columns df) ->
  find_columns df = Raise AttributeError /\
  normalize floatify float_repr cast_overflow argsort df = Raise AttributeError.
Proof.
  intros H. pose proof (find_columns_non_text df H) as Hf. split; [done|].
  apply normalize_Raise. unfold filtered, select_columns. by rewrite Hf.
Qed.

Lemma non_text_label_aborts_witness :
  Exists (fun o => is_text o = false) (columns year_sheet) /\
  resolve (py "hashtag") (columns year_sheet) = Some (py "Hashtag") /\
  resolve (py "count") (columns year_sheet) = Some (py "Count") /\
  find_columns year_sheet = Raise AttributeError /\
  normalize floatify_int float_repr_integral x86_indefinite stable_argsort year_sheet
  = Raise AttributeError.
Proof.
  assert (Exists (fun o => is_text o = false) (columns year_sheet)) as H.
  { do 2 apply Exists_cons_tl. by apply Exists_cons_hd. }
  split; [exact H|]. split; [vm_compute; reflexivity|].
  split; [vm_compute; reflexivity|].
  exact (non_text_label_aborts floatify_int float_repr_integral x86_indefinite
           stable_argsort year_sheet H).
Defined.

(** ** Columns the script has no use for *)

Lemma resolve_skip (k x : pystr) (cols1 cols2 : list pyobj) :
  lower x <> k ->
  resolve k (cols1 ++ OStr x :: cols2) = resolve k (cols1 ++ cols2).
Proof.
  intros Hx. unfold resolve. rewrite !omap_app. simpl.
  by rewrite bool_decide_false.
Qed.

Lemma filter_label_skip (k x : pystr) (cells : list pyobj) (df1 df2 : DataFrame) :
  x <> k ->
  filter (fun col => label_is k col.1) (df1 ++ (OStr x, cells) :: df2)
  = filter (fun col => label_is k col.1) (df1 ++ df2).
Proof.
  intros Hx. rewrite !filter_app, filter_cons.
  destruct (decide _) as [Hk|_]; [|done].
  apply label_is_true in Hk. simpl in Hk. congruence.
Qed.

(** X4: a column whose label is text and lowers to neither ["hashtag"]
    nor ["count"] is ignored: with it or without it, wherever it stands,
    the sheet normalises to the same table, or fails in both cases. *)
Theorem extra_column_ignored
    (floatify : pystr -> option float64) (float_repr : Q -> pystr)
    (cast_overflow : Q -> Z) (argsort : list Z -> list nat)
    (df1 df2 : DataFrame) (x : pystr) (cells : list pyobj) :
  lower x <> py "hashtag" -> lower x <> py "count" ->
  table_of (normalize floatify float_repr cast_overflow argsort
              (df1 ++ (OStr x, cells) :: df2))
  = table_of (normalize floatify float_repr cast_overflow argsort (df1 ++ df2)).
Proof.
  intros Hh Hc. apply normalize_select_ext. unfold select_columns.
  destruct (text_or_not (columns (df1 ++ df2))) as [Ht|Hn].
  - assert (Forall (fun o => is_text o = true)
              (columns (df1 ++ (OStr x, cells) :: df2))) as Ht'.
    { unfold columns in *. rewrite fmap_app in *. rewrite fmap_cons.
      apply Forall_app in Ht as [H1 H2]. apply Forall_app. split; [done|].
      by constructor. }
    rewrite (find_columns_resolves _ Ht), (find_columns_resolves _ Ht').
    assert (forall k, lower x <> k ->
              resolve k (columns (df1 ++ (OStr x, cells) :: df2))
              = resolve k (columns (df1 ++ df2))) as Hres.
    { intros k Hk. unfold columns. rewrite !fmap_app, fmap_cons.
      by apply resolve_skip. }
    rewrite !Hres by done.
    destruct (resolve (py "hashtag") (columns (df1 ++ df2))) as [h|] eqn:Eh; [|done].
    destruct (resolve (py "count") (columns (df1 ++ df2))) as [c|] eqn:Ec; [|done].
    apply resolve_Some in Eh as [Eh _]. apply resolve_Some in Ec as [Ec _].
    simpl. unfold getitem. simpl.
    rewrite !filter_label_skip by congruence. done.
  - assert (Exists (fun o => is_text o = false)
              (columns (df1 ++ (OStr x, cells) :: df2))) as Hn'.
    { unfold columns in *. rewrite fmap_app in *. rewrite fmap_cons.
      apply Exists_app in Hn as [H|H]; apply Exists_app; [by left|right].
      by apply Exists_cons_tl. }
    by rewrite (find_columns_non_text _ Hn), (find_columns_non_text _ Hn').
Qed.

Lemma extra_column_ignored_witness :
  lower (py "Source") <> py "hashtag" /\ lower (py "Source") <> py "count" /\
  table_of (normalize floatify_int float_repr_integral x86_indefinite stable_argsort
              wide_sheet)
  = Some [(0%nat, (py "#ml", 8)); (1%nat, (py "#ai", 3))] /\
  table_of (normalize floatify_int float_repr_integral x86_indefinite stable_argsort
              ([(text "hashtag", [text "old"; text "older"])]
               ++ (OStr (py "Source"), [text "web"; text "app"])
               :: [(text "Count", [OInt 3; OInt 8]);
                   (text "HASHTAG", [text " #ai"; text "#ml "])]))
  = table_of (normalize floatify_int float_repr_integral x86_indefinite stable_argsort
              ([(text "hashtag", [text "old"; text "older"])]
               ++ [(text "Count", [OInt 3; OInt 8]);
                   (text "HASHTAG", [text " #ai"; text "#ml "])])).
Proof.
  split; [vm_compute; discriminate|]. split; [vm_compute; discriminate|].
  split; [vm_compute; reflexivity|].
  apply (extra_column_ignored floatify_int float_repr_integral x86_indefinite
           stable_argsort).
  - vm_compute; discriminate.
  - vm_compute; discriminate.
Defined.

(** ** What trimming keeps *)

Lemma lstrip_split (s : pystr) :
  exists l, s = l ++ lstrip s /\ Forall (fun c => isspace c = true) l.
Proof.
  induction s as [|c s (l & Hs & Hl)]; simpl.
  - by exists [].
  - destruct (isspace c) eqn:E.
    + exists (c :: l). split; [by rewrite Hs at 1|by constructor].
    + by exists [].
Qed.

Lemma rstrip_split (s : pystr) :
  exists r, s = rstrip s ++ r /\ Forall (fun c => isspace c = true) r.
Proof.
  destruct (lstrip_split (reverse s)) as (l & Hs & Hl).
  exists (reverse l). split.
  - unfold rstrip. rewrite <- reverse_app, <- Hs. by rewrite reverse_involutive.
  - by apply Forall_reverse.
Qed.

Lemma strip_split (s : pystr) :
  exists l r,
    s = l ++ strip s ++ r /\
    Forall (fun c => isspace c = true) l /\ Forall (fun c => isspace c = true) r.
Proof.
  destruct (lstrip_split s) as (l & Hs & Hl).
  destruct (rstrip_split (lstrip s)) as (r & Hr & Hr').
  exists l, r. unfold strip. split; [|done]. by rewrite <- Hr.
Qed.

Lemma strip_first (s : pystr) (c : N) :
  strip s !! 0%nat = Some c -> isspace c = false.
Proof.
  unfold strip. destruct (lstrip_head s) as [->|(d & t & -> & Hd)]; [done|].
  rewrite rstrip_cons by done. simpl. by intros [= <-].
Qed.

Lemma lstrip_nonempty_first (s : pystr) (c : N) (t : pystr) :
  lstrip s = c :: t -> isspace c = false.
Proof.
  intros H. destruct (lstrip_head s) as [E|(d & t' & E & Hd)]; congruence.
Qed.

Lemma strip_last (s : pystr) (c : N) :
  last (strip s) = Some c -> isspace c = false.
Proof.
  unfold strip, rstrip. intros H.
  apply last_Some in H as [u Hu].
  apply (f_equal reverse) in Hu. rewrite reverse_involutive, reverse_snoc in Hu.
  by apply lstrip_nonempty_first in Hu.
Qed.

Lemma lstrip_nil_iff (s : pystr) :
  lstrip s = [] <-> Forall (fun c => isspace c = true) s.
Proof.
  induction s as [|c s IH]; simpl; [done|].
  destruct (isspace c) eqn:E.
  - rewrite IH. split; [by constructor|by inversion 1].
  - split; [done|]. inversion 1; congruence.
Qed.

(** A text trims to nothing exactly when it is made of whitespace. *)
Lemma strip_nil_iff (s : pystr) :
  strip s = [] <-> Forall (fun c => isspace c = true) s.
Proof.
  split.
  - intros H. destruct (strip_split s) as (l & r & Hs & Hl & Hr).
    rewrite H in Hs. rewrite Hs. apply Forall_app. by split.
  - intros H. unfold strip. apply lstrip_nil_iff in H. by rewrite H.
Qed.

(** X5: on a sheet whose count cells a double holds exactly, every row of
    the normalised table stems from one row of the sheet: its label is the
    text of that row's hashtag cell without the whitespace around it, and
    its count is what that same row's count cell coerces to, which for an
    integer cell is the integer itself.  Sorting moves rows as a whole. *)
Theorem row_provenance
    (floatify : pystr -> option float64) (float_repr : Q -> pystr)
    (cast_overflow : Q -> Z) (argsort : list Z -> list nat)
    (df : DataFrame) (hs cs : list pyobj) (t : Frame) :
  select_columns df = Ok (hs, cs) ->
  Forall (fun o => exact_count floatify o = true) cs ->
  normalize floatify float_repr cast_overflow argsort df = Ok t ->
  forall r, r ∈ rows t ->
    exists i h c l r',
      hs !! i = Some h /\ cs !! i = Some c /\
      astype_str float_repr h = l ++ r.1 ++ r' /\
      Forall (fun c => isspace c = true) l /\
      Forall (fun c => isspace c = true) r' /\
      coerce_count floatify cast_overflow c = Ok r.2 /\
      (forall n, c = OInt n -> r.2 = n).
Proof.
  intros Hsel Hex Hn r Hr.
  destruct (normalize_row_source floatify float_repr cast_overflow argsort
              df hs cs t Hsel Hn r Hr) as (i & h & c & Hh & Hc & Hlab & Hz).
  destruct (strip_split (astype_str float_repr h)) as (l & r' & Hs & Hl & Hr').
  exists i, h, c, l, r'. unfold clean_label in Hlab. rewrite Hlab.
  assert (exact_count floatify c = true) as Hc'.
  { rewrite Forall_forall in Hex. apply Hex, list_elem_of_lookup. by exists i. }
  destruct (coerce_count_exact floatify cast_overflow c r.2 Hc' Hz)
    as (_ & Hint & _).
  done.
Qed.

Lemma row_provenance_witness :
  select_columns wide_sheet
    = Ok ([text " #ai"; text "#ml "], [OInt 3; OInt 8]) /\
  Forall (fun o => exact_count floatify_int o = true) [OInt 3; OInt 8] /\
  normalize floatify_int float_repr_integral x86_indefinite stable_argsort wide_sheet
    = Ok [(0%nat, (py "#ml", 8)); (1%nat, (py "#ai", 3))] /\
  forall r, r ∈ rows [(0%nat, (py "#ml", 8)); (1%nat, (py "#ai", 3))] ->
    exists i h c l r',
      [text " #ai"; text "#ml "] !! i = Some h /\ [OInt 3; OInt 8] !! i = Some c /\
      astype_str float_repr_integral h = l ++ r.1 ++ r' /\
      Forall (fun c => isspace c = true) l /\
      Forall (fun c => isspace c = true) r' /\
      coerce_count floatify_int x86_indefinite c = Ok r.2 /\
      (forall n, c = OInt n -> r.2 = n).
Proof.
  split; [vm_compute; reflexivity|]. split; [repeat constructor|].
  split; [vm_compute; reflexivity|].
  apply (row_provenance floatify_int float_repr_integral x86_indefinite
           stable_argsort wide_sheet).
  - vm_compute; reflexivity.
  - repeat constructor.
  - vm_compute; reflexivity.
Defined.

(** X6: a label of the normalised table neither starts nor ends with a
    whitespace character. *)
Theorem labels_trimmed
    (floatify : pystr -> option float64) (float_repr : Q -> pystr)
    (cast_overflow : Q -> Z) (argsort : list Z -> list nat)
    (df : DataFrame) (t : Frame) :
  normalize floatify float_repr cast_overflow argsort df = Ok t ->
  Forall (fun r =>
            (forall c, row_hashtag r !! 0%nat = Some c -> isspace c = false) /\
            (forall c, last (row_hashtag r) = Some c -> isspace c = false) /\
            strip (row_hashtag r) = row_hashtag r) t.
Proof.
  intros Hn.
  destruct (normalize_Ok_inv _ _ _ _ _ _ Hn) as (f & Hf & Hsub & _).
  apply filtered_Ok in Hf as (hs & cs & zs & Hsel & Hzs & ->).
  apply Forall_forall. intros [i [lab z]] Hr. unfold row_hashtag. simpl.
  assert ((lab, z) ∈ rows t) as Hin by (by apply (list_elem_of_fmap_2 snd) in Hr).
  apply Hsub in Hin.
  rewrite <- (length_fmap (clean_label float_repr) hs) in Hin.
  apply elem_of_rows_drop_empty in Hin as (j & Hh & _ & _). simpl in Hh.
  unfold clean_hashtag in Hh. apply list_lookup_fmap_Some in Hh as (h & -> & _).
  unfold clean_label. split; [apply strip_first|]. split; [apply strip_last|].
  apply strip_idemp.
Qed.

Lemma labels_trimmed_witness :
  normalize floatify_int float_repr_integral x86_indefinite stable_argsort wide_sheet
    = Ok [(0%nat, (py "#ml", 8)); (1%nat, (py "#ai", 3))] /\
  Forall (fun r =>
            (forall c, row_hashtag r !! 0%nat = Some c -> isspace c = false) /\
            (forall c, last (row_hashtag r) = Some c -> isspace c = false) /\
            strip (row_hashtag r) = row_hashtag r)
    [(0%nat, (py "#ml", 8)); (1%nat, (py "#ai", 3))].
Proof.
  split; [vm_compute; reflexivity|].
  apply (labels_trimmed floatify_int float_repr_integral x86_indefinite
           stable_argsort wide_sheet).
  vm_compute; reflexivity.
Defined.

(** ** How many rows survive, and which come first *)

Lemma kept_length (float_repr : Q -> pystr) (hs : list pyobj) (zs : list Z) :
  length hs = length zs ->
  length (filter (fun r : pystr * Z => (0 < length r.1)%nat)
            (zip (clean_hashtag float_repr hs) zs))
  = length (filter (fun h => ~ Forall (fun c => isspace c = true)
                                (astype_str float_repr h)) hs).
Proof.
  revert zs. induction hs as [|h hs IH]; intros [|z zs] Hlen; try done.
  simpl in Hlen. injection Hlen as Hlen. unfold clean_hashtag in *. simpl.
  rewrite !filter_cons. simpl.
  assert ((0 < length (clean_label float_repr h))%nat
          <-> ~ Forall (fun c => isspace c = true) (astype_str float_repr h)) as Hiff.
  { unfold clean_label. rewrite <- strip_nil_iff.
    destruct (strip (astype_str float_repr h)); simpl; [|split; [done|lia]].
    split; [lia|done]. }
  destruct (decide (0 < _)%nat) as [H1|H1], (decide (~ _)) as [H2|H2];
    simpl; rewrite ?IH by done; try done; tauto.
Qed.

(** X7: the normalised table has one row for each row of the sheet whose
    hashtag text holds a character that is not whitespace; it never has
    more rows than the sheet. *)
Theorem table_length
    (floatify : pystr -> option float64) (float_repr : Q -> pystr)
    (cast_overflow : Q -> Z) (argsort : list Z -> list nat)
    (df : DataFrame) (hs cs : list pyobj) (t : Frame) :
  argsort_spec argsort ->
  select_columns df = Ok (hs, cs) ->
  length hs = length cs ->
  normalize floatify float_repr cast_overflow argsort df = Ok t ->
  length t = length (filter (fun h => ~ Forall (fun c => isspace c = true)
                                        (astype_str float_repr h)) hs) /\
  (length t <= length hs)%nat.
Proof.
  intros Hspec Hsel Hlen Hn.
  destruct (normalize_rows_perm floatify float_repr cast_overflow argsort Hspec
              df hs cs t Hsel Hn) as (zs & Hzs & Hp).
  apply clean_count_Ok, Forall2_length in Hzs.
  assert (length t = length (filter (fun h => ~ Forall (fun c => isspace c = true)
                                        (astype_str float_repr h)) hs)) as E.
  { rewrite <- (length_fmap snd t). fold (rows t). rewrite Hp.
    apply kept_length. congruence. }
  split; [done|]. rewrite E. apply length_filter.
Qed.

Lemma table_length_witness :
  argsort_spec stable_argsort /\
  select_columns scenario_sheet
    = Ok ([text "#ai"; text "#ai "; text " "; text "#ml"],
          [OInt 120; OInt 95; OInt 50; text "bad"]) /\
  normalize floatify_int float_repr_integral x86_indefinite stable_argsort
    scenario_sheet = Ok scenario_table /\
  length scenario_table
  = length (filter (fun h => ~ Forall (fun c => isspace c = true)
                                (astype_str float_repr_integral h))
              [text "#ai"; text "#ai "; text " "; text "#ml"]) /\
  (length scenario_table <= length [text "#ai"; text "#ai "; text " "; text "#ml"])%nat.
Proof.
  split; [exact stable_argsort_spec|]. split; [vm_compute; reflexivity|].
  split; [vm_compute; reflexivity|].
  apply (table_length floatify_int float_repr_integral x86_indefinite
           stable_argsort scenario_sheet _ [OInt 120; OInt 95; OInt 50; text "bad"]).
  - exact stable_argsort_spec.
  - vm_compute; reflexivity.
  - reflexivity.
  - vm_compute; reflexivity.
Defined.

Lemma StronglySorted_lookup {A} (R : relation A) (l : list A) i j x y :
  StronglySorted R l -> (i < j)%nat -> l !! i = Some x -> l !! j = Some y -> R x y.
Proof.
  intros Hs. revert i j. induction Hs as [|a l _ IH Hall]; intros i j Hij Hi Hj.
  - done.
  - destruct j as [|j]; [lia|]. simpl in Hj. destruct i as [|i]; simpl in Hi.
    + injection Hi as ->. rewrite Forall_forall in Hall. apply Hall.
      apply list_elem_of_lookup. by exists j.
    + apply (IH i j); [lia|done..].
Qed.

Lemma count_ge_ordered (t : Frame) i j ri rj :
  Sorted count_ge t -> (i <= j)%nat -> t !! i = Some ri -> t !! j = Some rj ->
  row_count rj <= row_count ri.
Proof.
  intros Hs Hij Hi Hj.
  destruct (decide (i = j)) as [->|Hne].
  - assert (ri = rj) as -> by congruence. lia.
  - assert (Transitive count_ge) as Htr.
    { intros a b c. unfold count_ge. lia. }
    apply (StronglySorted_lookup count_ge t i j ri rj); [|lia|done..].
    by apply Sorted_StronglySorted.
Qed.

(** X8: in the normalised table a row never has a larger count than a row
    above it.  Hence the first row carries the largest count of all
    filtered rows, and every row of the ten-row preview of the report has
    a count at least as large as each row left out of it. *)
Theorem preview_holds_largest
    (floatify : pystr -> option float64) (float_repr : Q -> pystr)
    (cast_overflow : Q -> Z) (argsort : list Z -> list nat)
    (df : DataFrame) (f : Frame) :
  argsort_spec argsort ->
  filtered floatify float_repr cast_overflow df = Ok f ->
  exists t,
    normalize floatify float_repr cast_overflow argsort df = Ok t /\
    (forall i j ri rj, (i <= j)%nat -> t !! i = Some ri -> t !! j = Some rj ->
                       row_count rj <= row_count ri) /\
    (forall r0 r, t !! 0%nat = Some r0 -> r ∈ rows f -> r.2 <= row_count r0) /\
    (forall r r', r ∈ head 10 t -> r' ∈ drop 10 t -> row_count r' <= row_count r).
Proof.
  intros Hspec Hf.
  destruct (normalize_of_filtered floatify float_repr cast_overflow argsort Hspec
              df f Hf) as (t & Ht & Hs & Hp & _).
  exists t. split; [done|]. split; [|split].
  - intros i j ri rj. by apply count_ge_ordered.
  - intros r0 r H0 Hr. rewrite <- Hp in Hr. unfold rows in Hr.
    apply list_elem_of_fmap in Hr as (x & -> & Hx).
    apply list_elem_of_lookup in Hx as [j Hj].
    apply (count_ge_ordered t 0 j r0 x Hs); [lia|done..].
  - intros r r' Hr Hr'. unfold head in Hr.
    apply list_elem_of_lookup in Hr as [i Hi].
    apply list_elem_of_lookup in Hr' as [j Hj].
    rewrite lookup_drop in Hj.
    assert (i < 10)%nat as Hlt.
    { apply lookup_lt_Some in Hi. rewrite length_take in Hi. lia. }
    rewrite lookup_take_lt in Hi by done.
    apply (count_ge_ordered t i (10 + j) r r' Hs); [lia|done..].
Qed.

Lemma preview_holds_largest_witness :
  argsort_spec stable_argsort /\
  filtered floatify_int float_repr_integral x86_indefinite twelve_sheet = Ok twelve_table /\
  exists t,
    normalize floatify_int float_repr_integral x86_indefinite stable_argsort
      twelve_sheet = Ok t /\
    (forall i j ri rj, (i <= j)%nat -> t !! i = Some ri -> t !! j = Some rj ->
                       row_count rj <= row_count ri) /\
    (forall r0 r, t !! 0%nat = Some r0 -> r ∈ rows twelve_table -> r.2 <= row_count r0) /\
    (forall r r', r ∈ head 10 t -> r' ∈ drop 10 t -> row_count r' <= row_count r).
Proof.
  split; [exact stable_argsort_spec|]. split; [vm_compute; reflexivity|].
  apply (preview_holds_largest floatify_int float_repr_integral x86_indefinite
           stable_argsort twelve_sheet).
  - exact stable_argsort_spec.
  - vm_compute; reflexivity.
Defined.

(** ** Outcomes of a run *)

Section Outcomes.

Variable floatify : pystr -> option float64.
Variable float_repr : Q -> pystr.
Variable cast_overflow : Q -> Z.
Variable argsort : list Z -> list nat.
Variable read_workbook : content -> sheet_ref -> result DataFrame.
Variable csv_field : pystr -> pystr.
Variable render_bar : Frame -> result (list N).
Variable render_pie : Frame -> result (list N).
Variable to_markdown : Frame -> result pystr.

Local Abbreviation run :=
  (main floatify float_repr cast_overflow argsort read_workbook csv_field
     render_bar render_pie to_markdown).

Lemma main_writes_paths (input_path : pystr) (sheet_name : option pystr)
    (outdir : pystr) (c : content) :
  exists r ws,
    Forall (fun w => w.1 ∈ output_paths outdir) ws /\
    forall fs : FS,
      fs !! outdir = None -> fs !! input_path = Some c ->
      run input_path sheet_name outdir fs = (r, apply_writes fs ws).
Proof.
  destruct (read_workbook c (sheet_of sheet_name)) as [raw|e] eqn:Hraw.
  2:{ exists (Raise e), []. split; [constructor|]. intros fs Ho Hi.
      io_unfold. by rewrite Ho, Hi; simpl; rewrite Hraw. }
  destruct (normalize floatify float_repr cast_overflow argsort raw) as [t|e] eqn:Hn.
  2:{ exists (Raise e), []. split; [constructor|]. intros fs Ho Hi.
      io_unfold. by rewrite Ho, Hi; simpl; rewrite Hraw, Hn. }
  set (w1 := (path_join outdir cleaned_csv_name, Text (to_csv csv_field t))).
  destruct (render_bar t) as [bar|e] eqn:Hbar.
  2:{ exists (Raise e), [w1]. split; [unfold output_paths; repeat constructor|].
      intros fs Ho Hi. io_unfold.
      by rewrite Ho, Hi; simpl; rewrite Hraw, Hn, Hbar. }
  set (w2 := (path_join outdir bar_png_name, Binary bar)).
  destruct (render_pie t) as [pie|e] eqn:Hpie.
  2:{ exists (Raise e), [w1; w2]. split; [unfold output_paths; repeat constructor|].
      intros fs Ho Hi. io_unfold.
      by rewrite Ho, Hi; simpl; rewrite Hraw, Hn, Hbar, Hpie. }
  set (w3 := (path_join outdir pie_png_name, Binary pie)).
  destruct (to_markdown (head 10 t)) as [table|e] eqn:Hmd.
  - exists (Ok (output_paths outdir)),
      [w1; w2; w3;
       (path_join outdir report_name,
        Text (report_title ++ report_preview_heading ++ table
              ++ report_charts_heading ++ report_bar_image ++ report_pie_image))].
    split; [unfold output_paths; repeat constructor|].
    intros fs Ho Hi.
    by rewrite (main_success floatify float_repr cast_overflow argsort
                  read_workbook csv_field render_bar render_pie to_markdown
                  input_path sheet_name outdir fs c raw t bar pie table).
  - exists (Raise e),
      [w1; w2; w3;
       (path_join outdir report_name,
        Text (report_title ++ report_preview_heading))].
    split; [unfold output_paths; repeat constructor|].
    intros fs Ho Hi. unfold main, read_excel, makedirs, read_file, write_file,
      lift, mbind, io_bind, mret, io_ret.
    rewrite Ho, Hi; simpl; rewrite Hraw, Hn, Hbar, Hpie.
    by rewrite (write_report_Raise _ _ _ e).
Qed.

(** X9: whatever the outcome of a run, every file other than the four
    output files of the output directory is left as it was. *)
Theorem other_files_untouched (input_path : pystr) (sheet_name : option pystr)
    (outdir : pystr) (fs fs' : FS) (r : result (list pystr)) :
  run input_path sheet_name outdir fs = (r, fs') ->
  forall k, k ∉ output_paths outdir -> fs' !! k = fs !! k.
Proof.
  intros Hrun k Hk.
  destruct (fs !! outdir) as [d|] eqn:Ho.
  { revert Hrun. io_unfold. rewrite Ho. by intros [= <- <-]. }
  destruct (fs !! input_path) as [c|] eqn:Hi.
  2:{ revert Hrun. io_unfold. rewrite Ho, Hi. simpl. by intros [= <- <-]. }
  destruct (main_writes_paths input_path sheet_name outdir c) as (r' & ws & Hws & Hm).
  rewrite (Hm fs Ho Hi) in Hrun. injection Hrun as <- <-.
  apply apply_writes_lookup_other. eapply Forall_impl; [exact Hws|].
  intros w Hw E. apply Hk. by rewrite <- E.
Qed.

(** X10: an error before the export leaves every file as it was and is
    returned unchanged: a missing input file, a workbook that cannot be
    decoded, or a normalisation that raises (no text label, missing
    column, infinite count). *)
Theorem early_failure_writes_nothing (input_path : pystr)
    (sheet_name : option pystr) (outdir : pystr) (fs : FS) (e : exn) :
  fs !! outdir = None ->
  (fs !! input_path = None /\ e = FileNotFoundError) \/
  (exists c, fs !! input_path = Some c /\
             read_workbook c (sheet_of sheet_name) = Raise e) \/
  (exists c raw, fs !! input_path = Some c /\
                 read_workbook c (sheet_of sheet_name) = Ok raw /\
                 normalize floatify float_repr cast_overflow argsort raw = Raise e) ->
  run input_path sheet_name outdir fs = (Raise e, fs).
Proof.
  intros Ho [[Hi ->]|[(c & Hi & Hraw)|(c & raw & Hi & Hraw & Hn)]]; io_unfold.
  - by rewrite Ho, Hi.
  - by rewrite Ho, Hi; simpl; rewrite Hraw.
  - by rewrite Ho, Hi; simpl; rewrite Hraw, Hn.
Qed.

(** X11: the charts are drawn after the export and nothing is cleaned up:
    when the bar chart fails, the CSV of the normalised table is already
    written and is the only file written; when the pie chart fails, the
    CSV and the bar chart are. *)
Theorem chart_failure_keeps_csv (input_path : pystr) (sheet_name : option pystr)
    (outdir : pystr) (fs : FS) (c : content) (raw : DataFrame) (t : Frame)
    (e : exn) :
  fs !! outdir = None -> fs !! input_path = Some c ->
  read_workbook c (sheet_of sheet_name) = Ok raw ->
  normalize floatify float_repr cast_overflow argsort raw = Ok t ->
  (render_bar t = Raise e ->
   run input_path sheet_name outdir fs
   = (Raise e, <[path_join outdir cleaned_csv_name := Text (to_csv csv_field t)]> fs)) /\
  (forall bar, render_bar t = Ok bar -> render_pie t = Raise e ->
   run input_path sheet_name outdir fs
   = (Raise e,
      <[path_join outdir bar_png_name := Binary bar]>
        (<[path_join outdir cleaned_csv_name := Text (to_csv csv_field t)]> fs))).
Proof.
  intros Ho Hi Hraw Hn. split.
  - intros Hbar. io_unfold. by rewrite Ho, Hi; simpl; rewrite Hraw, Hn, Hbar.
  - intros bar Hbar Hpie. io_unfold.
    by rewrite Ho, Hi; simpl; rewrite Hraw, Hn, Hbar, Hpie.
Qed.

(** X12: when the table printer fails, the report file has already been
    opened and its two headings written: the run ends with that error,
    [REPORT.md] holds the title and the preview heading and nothing else,
    and the CSV and both charts are in place. *)
Theorem markdown_failure_truncates_report (input_path : pystr)
    (sheet_name : option pystr) (outdir : pystr) (fs : FS) (c : content)
    (raw : DataFrame) (t : Frame) (bar pie : list N) (e : exn) :
  fs !! outdir = None -> fs !! input_path = Some c ->
  read_workbook c (sheet_of sheet_name) = Ok raw ->
  normalize floatify float_repr cast_overflow argsort raw = Ok t ->
  render_bar t = Ok bar -> render_pie t = Ok pie ->
  to_markdown (head 10 t) = Raise e ->
  exists fs',
    run input_path sheet_name outdir fs = (Raise e, fs') /\
    fs' !! path_join outdir report_name
    = Some (Text (report_title ++ report_preview_heading)) /\
    fs' !! path_join outdir cleaned_csv_name = Some (Text (to_csv csv_field t)) /\
    fs' !! path_join outdir bar_png_name = Some (Binary bar) /\
    fs' !! path_join outdir pie_png_name = Some (Binary pie).
Proof.
  intros Ho Hi Hraw Hn Hbar Hpie Hmd. eexists. split.
  - unfold main, read_excel, makedirs, read_file, write_file,
      lift, mbind, io_bind, mret, io_ret.
    rewrite Ho, Hi; simpl; rewrite Hraw, Hn, Hbar, Hpie.
    by rewrite (write_report_Raise _ _ _ e).
  - split; [by rewrite lookup_insert_eq|]. split; [|split].
    + do 3 (rewrite lookup_insert_ne
              by (intros E; by apply path_join_inj in E)).
      by rewrite lookup_insert_eq.
    + do 2 (rewrite lookup_insert_ne
              by (intros E; by apply path_join_inj in E)).
      by rewrite lookup_insert_eq.
    + rewrite lookup_insert_ne by (intros E; by apply path_join_inj in E).
      by rewrite lookup_insert_eq.
Qed.

(** X13: a run that ends without error returns the four output paths, and
    every stage has succeeded: the four files are in place, the CSV being
    the export of the normalised table of the workbook that was read and
    the images the two charts of that table. *)
Theorem success_means_all_outputs (input_path : pystr)
    (sheet_name : option pystr) (outdir : pystr) (fs fs' : FS)
    (paths : list pystr) :
  run input_path sheet_name outdir fs = (Ok paths, fs') ->
  paths = output_paths outdir /\
  exists c raw t bar pie table,
    fs !! input_path = Some c /\
    read_workbook c (sheet_of sheet_name) = Ok raw /\
    normalize floatify float_repr cast_overflow argsort raw = Ok t /\
    render_bar t = Ok bar /\ render_pie t = Ok pie /\
    to_markdown (head 10 t) = Ok table /\
    fs' !! path_join outdir cleaned_csv_name = Some (Text (to_csv csv_field t)) /\
    fs' !! path_join outdir bar_png_name = Some (Binary bar) /\
    fs' !! path_join outdir pie_png_name = Some (Binary pie) /\
    fs' !! path_join outdir report_name
    = Some (Text (report_title ++ report_preview_heading ++ table
                  ++ report_charts_heading ++ report_bar_image ++ report_pie_image)).
Proof.
  intros Hrun.
  destruct (fs !! outdir) as [d|] eqn:Ho.
  { revert Hrun. io_unfold. by rewrite Ho. }
  destruct (fs !! input_path) as [c|] eqn:Hi.
  2:{ revert Hrun. io_unfold. by rewrite Ho, Hi. }
  destruct (read_workbook c (sheet_of sheet_name)) as [raw|e] eqn:Hraw.
  2:{ revert Hrun. io_unfold. by rewrite Ho, Hi; simpl; rewrite Hraw. }
  destruct (normalize floatify float_repr cast_overflow argsort raw) as [t|e] eqn:Hn.
  2:{ revert Hrun. io_unfold. by rewrite Ho, Hi; simpl; rewrite Hraw, Hn. }
  destruct (render_bar t) as [bar|e] eqn:Hbar.
  2:{ revert Hrun. io_unfold. by rewrite Ho, Hi; simpl; rewrite Hraw, Hn, Hbar. }
  destruct (render_pie t) as [pie|e] eqn:Hpie.
  2:{ revert Hrun. io_unfold.
      by rewrite Ho, Hi; simpl; rewrite Hraw, Hn, Hbar, Hpie. }
  destruct (to_markdown (head 10 t)) as [table|e] eqn:Hmd.
  2:{ revert Hrun. unfold main, read_excel, makedirs, read_file, write_file,
        lift, mbind, io_bind, mret, io_ret.
      rewrite Ho, Hi; simpl; rewrite Hraw, Hn, Hbar, Hpie.
      by rewrite (write_report_Raise _ _ _ e). }
  rewrite (main_success floatify float_repr cast_overflow argsort
             read_workbook csv_field render_bar render_pie to_markdown
             input_path sheet_name outdir fs c raw t bar pie table) in Hrun by done.
  injection Hrun as <- <-. split; [done|].
  exists c, raw, t, bar, pie, table. repeat (split; [done|]).
  split; [|split; [|split]].
  - do 3 (rewrite lookup_insert_ne by (intros E; by apply path_join_inj in E)).
    by rewrite lookup_insert_eq.
  - do 2 (rewrite lookup_insert_ne by (intros E; by apply path_join_inj in E)).
    by rewrite lookup_insert_eq.
  - rewrite lookup_insert_ne by (intros E; by apply path_join_inj in E).
    by rewrite lookup_insert_eq.
  - by rewrite lookup_insert_eq.
Qed.

End Outcomes.

Lemma other_files_untouched_witness :
  let first :=
    main floatify_int float_repr_integral x86_indefinite Npy.aquicksort
      (decode_as scenario_sheet) csv_quote_minimal blank_png blank_png
      plain_markdown (py "data/top_hashtags.xlsx") None (py "outputs") sample_fs in
  first.1 = Ok (output_paths (py "outputs")) /\
  forall k, k ∉ output_paths (py "outputs") -> first.2 !! k = sample_fs !! k.
Proof.
  intros first. split; [vm_compute; reflexivity|].
  apply (other_files_untouched floatify_int float_repr_integral x86_indefinite
           Npy.aquicksort (decode_as scenario_sheet) csv_quote_minimal blank_png
           blank_png plain_markdown (py "data/top_hashtags.xlsx") None
           (py "outputs") sample_fs first.2 first.1).
  apply surjective_pairing.
Defined.

Lemma early_failure_writes_nothing_witness :
  sample_fs !! py "outputs" = None /\
  sample_fs !! py "data/top_hashtags.xlsx" = Some (Binary [80; 75; 3; 4]%N) /\
  normalize floatify_int float_repr_integral x86_indefinite stable_argsort inf_sheet
    = Raise IntCastingNaNError /\
  main floatify_int float_repr_integral x86_indefinite stable_argsort
    (decode_as inf_sheet) csv_quote_minimal blank_png blank_png plain_markdown
    (py "data/top_hashtags.xlsx") None (py "outputs") sample_fs
  = (Raise IntCastingNaNError, sample_fs).
Proof.
  split; [vm_compute; reflexivity|]. split; [vm_compute; reflexivity|].
  split; [vm_compute; reflexivity|].
  apply (early_failure_writes_nothing floatify_int float_repr_integral
           x86_indefinite stable_argsort (decode_as inf_sheet) csv_quote_minimal
           blank_png blank_png plain_markdown).
  - vm_compute; reflexivity.
  - right. right. exists (Binary [80; 75; 3; 4]%N), inf_sheet.
    split; [vm_compute; reflexivity|]. split; [reflexivity|].
    vm_compute; reflexivity.
Defined.

Lemma chart_failure_keeps_csv_witness :
  sample_fs !! py "outputs" = None /\
  sample_fs !! py "data/top_hashtags.xlsx" = Some (Binary [80; 75; 3; 4]%N) /\
  normalize floatify_int float_repr_integral x86_indefinite stable_argsort
    scenario_sheet = Ok scenario_table /\
  main floatify_int float_repr_integral x86_indefinite stable_argsort
    (decode_as scenario_sheet) csv_quote_minimal failing_png blank_png plain_markdown
    (py "data/top_hashtags.xlsx") None (py "outputs") sample_fs
  = (Raise (LibraryError (py "render")),
     <[path_join (py "outputs") cleaned_csv_name :=
         Text (to_csv csv_quote_minimal scenario_table)]> sample_fs).
Proof.
  split; [vm_compute; reflexivity|]. split; [vm_compute; reflexivity|].
  split; [vm_compute; reflexivity|].
  apply (proj1 (chart_failure_keeps_csv floatify_int float_repr_integral
                  x86_indefinite stable_argsort (decode_as scenario_sheet)
                  csv_quote_minimal failing_png blank_png plain_markdown
                  (py "data/top_hashtags.xlsx") None (py "outputs") sample_fs
                  (Binary [80; 75; 3; 4]%N) scenario_sheet scenario_table
                  (LibraryError (py "render"))
                  ltac:(vm_compute; reflexivity) ltac:(vm_compute; reflexivity)
                  ltac:(reflexivity) ltac:(vm_compute; reflexivity))).
  reflexivity.
Defined.

Lemma markdown_failure_truncates_report_witness :
  sample_fs !! py "outputs" = None /\
  sample_fs !! py "data/top_hashtags.xlsx" = Some (Binary [80; 75; 3; 4]%N) /\
  normalize floatify_int float_repr_integral x86_indefinite stable_argsort
    scenario_sheet = Ok scenario_table /\
  exists fs',
    main floatify_int float_repr_integral x86_indefinite stable_argsort
      (decode_as scenario_sheet) csv_quote_minimal blank_png blank_png
      failing_markdown (py "data/top_hashtags.xlsx") None (py "outputs") sample_fs
    = (Raise (LibraryError (py "tabulate")), fs') /\
    fs' !! path_join (py "outputs") report_name
    = Some (Text (report_title ++ report_preview_heading)) /\
    fs' !! path_join (py "outputs") cleaned_csv_name
    = Some (Text (to_csv csv_quote_minimal scenario_table)) /\
    fs' !! path_join (py "outputs") bar_png_name
    = Some (Binary [137; 80; 78; 71; 13; 10; 26; 10]%N) /\
    fs' !! path_join (py "outputs") pie_png_name
    = Some (Binary [137; 80; 78; 71; 13; 10; 26; 10]%N).
Proof.
  split; [vm_compute; reflexivity|]. split; [vm_compute; reflexivity|].
  split; [vm_compute; reflexivity|].
  apply (markdown_failure_truncates_report floatify_int float_repr_integral
           x86_indefinite stable_argsort (decode_as scenario_sheet)
           csv_quote_minimal blank_png blank_png failing_markdown
           (py "data/top_hashtags.xlsx") None (py "outputs") sample_fs
           (Binary [80; 75; 3; 4]%N) scenario_sheet scenario_table).
  - vm_compute; reflexivity.
  - vm_compute; reflexivity.
  - reflexivity.
  - vm_compute; reflexivity.
  - reflexivity.
  - reflexivity.
  - reflexivity.
Defined.

Lemma success_means_all_outputs_witness :
  let first :=
    main floatify_int float_repr_integral x86_indefinite Npy.aquicksort
      (decode_as scenario_sheet) csv_quote_minimal blank_png blank_png
      plain_markdown (py "data/top_hashtags.xlsx") None (py "outputs") sample_fs in
  first.1 = Ok (output_paths (py "outputs")) /\
  output_paths (py "outputs") = output_paths (py "outputs") /\
  exists c raw t bar pie table,
    sample_fs !! py "data/top_hashtags.xlsx" = Some c /\
    decode_as scenario_sheet c (sheet_of None) = Ok raw /\
    normalize floatify_int float_repr_integral x86_indefinite Npy.aquicksort raw = Ok t /\
    blank_png t = Ok bar /\ blank_png t = Ok pie /\
    plain_markdown (head 10 t) = Ok table /\
    first.2 !! path_join (py "outputs") cleaned_csv_name
    = Some (Text (to_csv csv_quote_minimal t)) /\
    first.2 !! path_join (py "outputs") bar_png_name = Some (Binary bar) /\
    first.2 !! path_join (py "outputs") pie_png_name = Some (Binary pie) /\
    first.2 !! path_join (py "outputs") report_name
    = Some (Text (report_title ++ report_preview_heading ++ table
                  ++ report_charts_heading ++ report_bar_image ++ report_pie_image)).
Proof.
  intros first. split; [vm_compute; reflexivity|].
  apply (success_means_all_outputs floatify_int float_repr_integral x86_indefinite
           Npy.aquicksort (decode_as scenario_sheet) csv_quote_minimal blank_png
           blank_png plain_markdown (py "data/top_hashtags.xlsx") None
           (py "outputs") sample_fs first.2 (output_paths (py "outputs"))).
  vm_compute; reflexivity.
Defined.

(** ** A sheet from which no row survives *)

(** X14: when every hashtag text of the sheet is blank, as when the sheet
    has no data rows, and no count is infinite, the normalised table is
    empty; if the renderers and the table printer accept the empty table,
    the run succeeds and the exported CSV holds the header line alone. *)
Theorem no_rows_header_only
    (floatify : pystr -> option float64) (float_repr : Q -> pystr)
    (cast_overflow : Q -> Z) (argsort : list Z -> list nat)
    (read_workbook : content -> sheet_ref -> result DataFrame)
    (csv_field : pystr -> pystr)
    (render_bar render_pie : Frame -> result (list N))
    (to_markdown : Frame -> result pystr)
    (input_path : pystr) (sheet_name : option pystr) (outdir : pystr)
    (fs : FS) (c : content) (raw : DataFrame) (hs cs : list pyobj)
    (bar pie : list N) (table : pystr) :
  argsort_spec argsort ->
  fs !! outdir = None -> fs !! input_path = Some c ->
  read_workbook c (sheet_of sheet_name) = Ok raw ->
  select_columns raw = Ok (hs, cs) ->
  Forall (fun h => Forall (fun c => isspace c = true) (astype_str float_repr h)) hs ->
  Forall (fun o => forall b, to_numeric floatify o <> Inf b) cs ->
  render_bar [] = Ok bar -> render_pie [] = Ok pie -> to_markdown [] = Ok table ->
  normalize floatify float_repr cast_overflow argsort raw = Ok [] /\
  exists fs',
    main floatify float_repr cast_overflow argsort read_workbook csv_field
      render_bar render_pie to_markdown input_path sheet_name outdir fs
    = (Ok (output_paths outdir), fs') /\
    fs' !! path_join outdir cleaned_csv_name = Some (Text (py "Hashtag,Count" ++ nl)).
Proof.
  intros Hspec Ho Hi Hraw Hsel Hblank Hfin Hbar Hpie Hmd.
  assert (normalize floatify float_repr cast_overflow argsort raw = Ok []) as Hn.
  { destruct (clean_count_total floatify cast_overflow cs Hfin) as [zs Hzs].
    assert (filtered floatify float_repr cast_overflow raw = Ok []) as Hf.
    { apply filtered_Ok. exists hs, cs, zs. split; [done|]. split; [done|].
      symmetry. apply (fmap_nil_inv snd). fold (rows (drop_empty
        (zip (seq 0 (length hs)) (zip (clean_hashtag float_repr hs) zs)))).
      rewrite <- (length_fmap (clean_label float_repr) hs).
      fold (clean_hashtag float_repr hs). rewrite rows_drop_empty.
      apply elem_of_nil_inv. intros [lab z] Hin.
      apply list_elem_of_filter in Hin as [Hne Hin]. simpl in Hne.
      apply list_elem_of_lookup in Hin as [j Hj].
      apply lookup_zip_with_Some in Hj as (? & ? & [= <- <-] & Hh & _).
      unfold clean_hashtag in Hh. apply list_lookup_fmap_Some in Hh as (h & -> & Hh).
      rewrite Forall_forall in Hblank.
      assert (h ∈ hs) as Hin by (apply list_elem_of_lookup; by exists j).
      apply Hblank, strip_nil_iff in Hin. unfold clean_label in Hne.
      rewrite Hin in Hne. simpl in Hne. lia. }
    destruct (normalize_of_filtered floatify float_repr cast_overflow argsort
                Hspec raw [] Hf) as (t & Ht & _ & Hp & _).
    simpl in Hp. apply Permutation_nil_r in Hp. apply fmap_nil_inv in Hp.
    by subst t. }
  split; [done|]. eexists. split.
  - by apply (main_success floatify float_repr cast_overflow argsort read_workbook
                csv_field render_bar render_pie to_markdown input_path sheet_name
                outdir fs c raw [] bar pie table).
  - do 3 (rewrite lookup_insert_ne by (intros E; by apply path_join_inj in E)).
    by rewrite lookup_insert_eq.
Qed.

Lemma no_rows_header_only_witness :
  argsort_spec stable_argsort /\
  select_columns empty_sheet = Ok ([], []) /\
  normalize floatify_int float_repr_integral x86_indefinite stable_argsort empty_sheet
    = Ok [] /\
  exists fs',
    main floatify_int float_repr_integral x86_indefinite stable_argsort
      (decode_as empty_sheet) csv_quote_minimal blank_png blank_png plain_markdown
      (py "data/top_hashtags.xlsx") None (py "outputs") sample_fs
    = (Ok (output_paths (py "outputs")), fs') /\
    fs' !! path_join (py "outputs") cleaned_csv_name
    = Some (Text (py "Hashtag,Count" ++ nl)).
Proof.
  split; [exact stable_argsort_spec|]. split; [vm_compute; reflexivity|].
  apply (no_rows_header_only floatify_int float_repr_integral x86_indefinite
           stable_argsort (decode_as empty_sheet) csv_quote_minimal blank_png
           blank_png plain_markdown (py "data/top_hashtags.xlsx") None
           (py "outputs") sample_fs (Binary [80; 75; 3; 4]%N) empty_sheet [] []
           [137; 80; 78; 71; 13; 10; 26; 10]%N [137; 80; 78; 71; 13; 10; 26; 10]%N
           (py "| Hashtag | Count |" ++ nl ++ py "|:---|---:|")).
  - exact stable_argsort_spec.
  - vm_compute; reflexivity.
  - vm_compute; reflexivity.
  - reflexivity.
  - vm_compute; reflexivity.
  - constructor.
  - constructor.
  - reflexivity.
  - reflexivity.
  - vm_compute; reflexivity.
Defined.

(** ** Any casing is accepted *)

Lemma resolve_is_Some (k s : pystr) (cols : list pyobj) :
  OStr s ∈ cols -> lower s = k -> is_Some (resolve k cols).
Proof.
  intros Hin Hk. unfold resolve. apply last_is_Some. intros E.
  assert (s ∈ omap (matches k) cols) as Hs.
  { apply list_elem_of_omap. exists (OStr s). split; [done|]. simpl.
    by rewrite bool_decide_true. }
  rewrite E in Hs. by apply elem_of_nil in Hs.
Qed.

(** X15: [find_columns] succeeds as soon as every column label is text,
    one of them lowers to ["hashtag"] and one to ["count"], in whatever
    casing they are written. *)
Theorem find_columns_accepts (df : DataFrame) (s s' : pystr) :
  Forall (fun o => is_text o = true) (columns df) ->
  OStr s ∈ columns df -> lower s = py "hashtag" ->
  OStr s' ∈ columns df -> lower s' = py "count" ->
  exists h c, find_columns df = Ok (h, c).
Proof.
  intros Ht Hs Hls Hs' Hls'. rewrite (find_columns_resolves df Ht).
  destruct (resolve_is_Some _ _ _ Hs Hls) as [h ->].
  destruct (resolve_is_Some _ _ _ Hs' Hls') as [c ->].
  by exists h, c.
Qed.

Lemma find_columns_accepts_witness :
  Forall (fun o => is_text o = true) (columns upper_sheet) /\
  OStr (py "HASHTAG") ∈ columns upper_sheet /\ lower (py "HASHTAG") = py "hashtag" /\
  OStr (py "COUNT") ∈ columns upper_sheet /\ lower (py "COUNT") = py "count" /\
  exists h c, find_columns upper_sheet = Ok (h, c).
Proof.
  assert (Forall (fun o => is_text o = true) (columns upper_sheet)) as Ht.
  { repeat constructor. }
  assert (OStr (py "HASHTAG") ∈ columns upper_sheet) as H1.
  { apply list_elem_of_here. }
  assert (OStr (py "COUNT") ∈ columns upper_sheet) as H2.
  { apply list_elem_of_further, list_elem_of_here. }
  split; [exact Ht|]. split; [exact H1|]. split; [vm_compute; reflexivity|].
  split; [exact H2|]. split; [vm_compute; reflexivity|].
  apply (find_columns_accepts upper_sheet (py "HASHTAG") (py "COUNT") Ht H1).
  - vm_compute; reflexivity.
  - exact H2.
  - vm_compute; reflexivity.
Defined.

(** ** Rows with the same hashtag *)

Lemma filter_label_length (float_repr : Q -> pystr) (lab : pystr)
    (hs : list pyobj) (zs : list Z) :
  length hs = length zs -> lab <> [] ->
  length (filter (fun r : pystr * Z => r.1 = lab)
            (filter (fun r : pystr * Z => (0 < length r.1)%nat)
               (zip (clean_hashtag float_repr hs) zs)))
  = length (filter (fun h => clean_label float_repr h = lab) hs).
Proof.
  intros Hlen Hlab. revert zs Hlen.
  induction hs as [|h hs IH]; intros [|z zs] Hlen; try done.
  simpl in Hlen. injection Hlen as Hlen. unfold clean_hashtag in *. simpl.
  rewrite (filter_cons (fun r : pystr * Z => (0 < length r.1)%nat)). simpl.
  rewrite (filter_cons (fun h => clean_label float_repr h = lab)).
  destruct (decide (clean_label float_repr h = lab)) as [E|E].
  - destruct (decide (0 < _)%nat) as [H1|H1].
    + rewrite filter_cons. simpl. rewrite decide_True by done. simpl.
      by rewrite IH.
    + rewrite E in H1. destruct lab; [done|simpl in H1; lia].
  - destruct (decide (0 < _)%nat) as [H1|H1]; [|by apply IH].
    rewrite filter_cons. simpl. rewrite decide_False by done. by apply IH.
Qed.

(** X16: rows are neither merged nor deduplicated: for every label, the
    normalised table has as many rows under it as the sheet has rows whose
    hashtag trims to it. *)
Theorem same_hashtag_rows_kept
    (floatify : pystr -> option float64) (float_repr : Q -> pystr)
    (cast_overflow : Q -> Z) (argsort : list Z -> list nat)
    (df : DataFrame) (hs cs : list pyobj) (t : Frame) (lab : pystr) :
  argsort_spec argsort ->
  select_columns df = Ok (hs, cs) ->
  length hs = length cs ->
  normalize floatify float_repr cast_overflow argsort df = Ok t ->
  lab <> [] ->
  length (filter (fun r => row_hashtag r = lab) t)
  = length (filter (fun h => clean_label float_repr h = lab) hs).
Proof.
  intros Hspec Hsel Hlen Hn Hlab.
  destruct (normalize_rows_perm floatify float_repr cast_overflow argsort Hspec
              df hs cs t Hsel Hn) as (zs & Hzs & Hp).
  apply clean_count_Ok, Forall2_length in Hzs.
  rewrite <- (filter_label_length float_repr lab hs zs) by congruence.
  rewrite <- Hp. unfold rows.
  rewrite <- (length_fmap snd (filter _ t)).
  f_equal. exact (rows_filter_snd (A:=nat) (fun r : pystr * Z => r.1 = lab) t).
Qed.

Lemma same_hashtag_rows_kept_witness :
  argsort_spec stable_argsort /\
  select_columns scenario_sheet
    = Ok ([text "#ai"; text "#ai "; text " "; text "#ml"],
          [OInt 120; OInt 95; OInt 50; text "bad"]) /\
  normalize floatify_int float_repr_integral x86_indefinite stable_argsort
    scenario_sheet = Ok scenario_table /\
  length (filter (fun r => row_hashtag r = py "#ai") scenario_table) = 2%nat /\
  length (filter (fun r => row_hashtag r = py "#ai") scenario_table)
  = length (filter (fun h => clean_label float_repr_integral h = py "#ai")
              [text "#ai"; text "#ai "; text " "; text "#ml"]).
Proof.
  split; [exact stable_argsort_spec|]. split; [vm_compute; reflexivity|].
  split; [vm_compute; reflexivity|]. split; [vm_compute; reflexivity|].
  apply (same_hashtag_rows_kept floatify_int float_repr_integral x86_indefinite
           stable_argsort scenario_sheet _ [OInt 120; OInt 95; OInt 50; text "bad"]).
  - exact stable_argsort_spec.
  - vm_compute; reflexivity.
  - reflexivity.
  - vm_compute; reflexivity.
  - discriminate.
Defined.
